(** * The BigQuery emulator query console

    A shallow embedding of [scripts/query-bigquery-emulator.py]: a script
    that builds a client for a local BigQuery emulator, lists the tables of
    one dataset, runs three fixed diagnostic queries and then reads SQL
    from standard input in a loop.

    The script is sequential Python whose only state lives outside it (the
    emulator behind the client library, standard input and standard
    output).  It is embedded with a small monad that threads the state of
    the emulator, may raise a Python exception and records what the script
    does to the outside (lines printed, calls made on the client, prompts
    shown) as a trace of events.

    What the embedding takes from outside the script:
    - the client library is a record of functions over the state of the
      emulator; a call returns or raises an instance of [Exception];
    - standard input is a finite list of what the calls of [input] find:
      lines, ends of input, interrupts and input that cannot be read; an
      interrupt arrives while [input] waits, and reading past the end of
      the list finds the end of the input. *)

From Stdlib Require Import String Ascii List ZArith Bool Lia DecimalString.
Import ListNotations.

Open Scope string_scope.
Open Scope list_scope.

(** ** Python strings

    A [str] is embedded as a [string] holding its UTF-8 bytes; the
    functions below read the characters off the bytes. *)

Module PyStr.

(** The line feed, written [\n] in the source. *)
Definition nl : string := String (ascii_of_nat 10) EmptyString.

(** [s * n] *)
Fixpoint repeat_str (s : string) (n : nat) : string :=
  match n with
  | O => ""
  | S n' => s ++ repeat_str s n'
  end.

(** [sep.join(l)] *)
Definition join (sep : string) (l : list string) : string :=
  String.concat sep l.

(** A string from the codes of its bytes. *)
Fixpoint of_bytes (codes : list nat) : string :=
  match codes with
  | [] => EmptyString
  | n :: codes' => String (ascii_of_nat n) (of_bytes codes')
  end.

(** The white space of Python, the characters [c] with [c.isspace()], each
    in UTF-8: U+0009 to U+000D, U+001C to U+0020, U+0085, U+00A0, U+1680,
    U+2000 to U+200A, U+2028, U+2029, U+202F, U+205F and U+3000. *)
Definition white_space : list string :=
  map of_bytes
    [[9]; [10]; [11]; [12]; [13]; [28]; [29]; [30]; [31]; [32];
     [194; 133]; [194; 160];
     [225; 154; 128];
     [226; 128; 128]; [226; 128; 129]; [226; 128; 130]; [226; 128; 131];
     [226; 128; 132]; [226; 128; 133]; [226; 128; 134]; [226; 128; 135];
     [226; 128; 136]; [226; 128; 137]; [226; 128; 138];
     [226; 128; 168]; [226; 128; 169]; [226; 128; 175];
     [226; 129; 159];
     [227; 128; 128]]%nat.

(** The tests of one, two and three bytes for a character of white space. *)
Definition space1 (b1 : ascii) : bool :=
  let n := nat_of_ascii b1 in
  (((9 <=? n) && (n <=? 13)) || ((28 <=? n) && (n <=? 32)))%nat.

Definition space2 (b1 b2 : ascii) : bool :=
  let n1 := nat_of_ascii b1 in
  let n2 := nat_of_ascii b2 in
  ((n1 =? 194) && ((n2 =? 133) || (n2 =? 160)))%nat.

Definition space3 (b1 b2 b3 : ascii) : bool :=
  let n1 := nat_of_ascii b1 in
  let n2 := nat_of_ascii b2 in
  let n3 := nat_of_ascii b3 in
  (((n1 =? 225) && (n2 =? 154) && (n3 =? 128))
   || ((n1 =? 226) && (n2 =? 128)
       && (((128 <=? n3) && (n3 <=? 138))
           || (n3 =? 168) || (n3 =? 169) || (n3 =? 175)))
   || ((n1 =? 226) && (n2 =? 129) && (n3 =? 159))
   || ((n1 =? 227) && (n2 =? 128) && (n3 =? 128)))%nat.

(** What follows the character of white space a string starts with, and
    [None] when it starts with none. *)
Definition skip (s : string) : option string :=
  match s with
  | EmptyString => None
  | String b1 s1 =>
      if space1 b1 then Some s1
      else match s1 with
           | EmptyString => None
           | String b2 s2 =>
               if space2 b1 b2 then Some s2
               else match s2 with
                    | EmptyString => None
                    | String b3 s3 =>
                        if space3 b1 b2 b3 then Some s3 else None
                    end
           end
  end.

(** Drops the white space at the start: [skip], as long as it applies. *)
Fixpoint lstrip (s : string) : string :=
  match s with
  | EmptyString => EmptyString
  | String b1 s1 =>
      if space1 b1 then lstrip s1
      else match s1 with
           | EmptyString => s
           | String b2 s2 =>
               if space2 b1 b2 then lstrip s2
               else match s2 with
                    | EmptyString => s
                    | String b3 s3 =>
                        if space3 b1 b2 b3 then lstrip s3 else s
                    end
           end
  end.

(** The string is white space from start to end. *)
Definition blank (s : string) : bool :=
  match lstrip s with
  | EmptyString => true
  | String _ _ => false
  end.

(** Drops the white space at the end: a byte stays unless all that is left
    from it on is white space. *)
Fixpoint rstrip (s : string) : string :=
  match s with
  | EmptyString => EmptyString
  | String b s' => if blank s then EmptyString else String b (rstrip s')
  end.

(** [s.strip()] *)
Definition strip (s : string) : string := rstrip (lstrip s).

Definition lower_char (c : ascii) : ascii :=
  let n := nat_of_ascii c in
  if ((65 <=? n) && (n <=? 90))%nat then ascii_of_nat (n + 32) else c.

(** [s.lower()], on the letters A..Z.  The script only tests the result
    for being one of three words of the letters a..z, and no character
    beyond A..Z lowers to one of their letters. *)
Fixpoint lower (s : string) : string :=
  match s with
  | EmptyString => EmptyString
  | String c s' => String (lower_char c) (lower s')
  end.

(** [x in [a, b, ...]] for strings. *)
Fixpoint mem (x : string) (l : list string) : bool :=
  match l with
  | [] => false
  | y :: l' => if String.eqb x y then true else mem x l'
  end.

(** [not s]: the empty string is the only false one. *)
Definition is_empty (s : string) : bool :=
  match s with
  | EmptyString => true
  | String _ _ => false
  end.

(** [str(n)] for an [int]. *)
Definition of_Z (z : Z) : string := NilZero.string_of_int (Z.to_int z).

(** [str(n)] for a length. *)
Definition of_nat (n : nat) : string := of_Z (Z.of_nat n).

End PyStr.

(** ** Values, rows and exceptions *)

(** The values a result row holds, as far as the script looks at them: it
    formats them with [str] and tests them with [or]. *)
Inductive value : Type :=
| VNone
| VStr (s : string)
| VInt (z : Z)
| VBool (b : bool).

(** [str(v)] *)
Definition str_value (v : value) : string :=
  match v with
  | VNone => "None"
  | VStr s => s
  | VInt z => PyStr.of_Z z
  | VBool true => "True"
  | VBool false => "False"
  end.

(** The truth value of [v], as [or] tests it. *)
Definition truthy (v : value) : bool :=
  match v with
  | VNone => false
  | VStr s => negb (PyStr.is_empty s)
  | VInt z => negb (Z.eqb z 0)
  | VBool b => b
  end.

(** [v or 'N/A'], formatted in an f-string. *)
Definition or_na (v : value) : string :=
  if truthy v then str_value v else "N/A".

(** A result row: the columns in order, each with its value.  The column
    names of one result are distinct. *)
Definition row : Type := list (string * value).

(** [row.keys()] and [row.values()] *)
Definition keys (r : row) : list string := map fst r.
Definition values (r : row) : list value := map snd r.

Fixpoint lookup (r : row) (key : string) : option value :=
  match r with
  | [] => None
  | (k, v) :: r' => if String.eqb k key then Some v else lookup r' key
  end.

(** The exceptions the script meets.  [Exception] stands for every instance
    of the class [Exception] other than [EOFError] and carries its [str];
    [EOFError] is a subclass of [Exception]; [KeyboardInterrupt] and
    [SystemExit] derive from [BaseException] only. *)
Inductive exc : Type :=
| Exception (msg : string)
| EOFError
| KeyboardInterrupt
| SystemExit (code : Z).

(** [isinstance(e, Exception)]: what [except Exception] catches. *)
Definition is_Exception (e : exc) : bool :=
  match e with
  | Exception _ | EOFError => true
  | KeyboardInterrupt | SystemExit _ => false
  end.

(** [str(e)], what [{e}] puts in an f-string. *)
Definition str_exc (e : exc) : string :=
  match e with
  | Exception msg => msg
  | EOFError => "EOF when reading a line"
  | KeyboardInterrupt => ""
  | SystemExit code => PyStr.of_Z code
  end.

(** A lazy, finite sequence as the client library hands it out (the tables
    of a dataset, the rows of a result): iterating it yields items and then
    either stops or raises an [Exception] with the given message, as when a
    later page cannot be fetched. *)
Inductive iter (A : Type) : Type :=
| Stop
| Yield (a : A) (rest : iter A)
| Raises (msg : string).

Arguments Stop {A}.
Arguments Yield {A} a rest.
Arguments Raises {A} msg.

(** The items an iterator yields before it stops or fails. *)
Fixpoint yielded {A : Type} (it : iter A) : list A :=
  match it with
  | Stop => []
  | Yield a rest => a :: yielded rest
  | Raises _ => []
  end.

(** How the iteration ends: [None] when it stops, the message when it
    raises. *)
Fixpoint ending {A : Type} (it : iter A) : option string :=
  match it with
  | Stop => None
  | Yield _ rest => ending rest
  | Raises msg => Some msg
  end.

(** An iterator that yields the items of [l] and stops. *)
Fixpoint of_list {A : Type} (l : list A) : iter A :=
  match l with
  | [] => Stop
  | a :: l' => Yield a (of_list l')
  end.

(** An item of [client.list_tables(...)]. *)
Record table_item : Type := { table_id : string }.

(** What [client.get_table(...)] returns: [num_rows] is an [int] or [None],
    [schema] the list of the fields. *)
Record table : Type := {
  num_rows : value;
  schema : list string
}.

(** ** The outside of the script *)

(** What a run does to the outside, in order. *)
Inductive event : Type :=
| Out (text : string)                    (* [print(text)] *)
| NewClient (endpoint project : string)  (* [bigquery.Client(...)] *)
| ListTables (dataset : string)          (* [client.list_tables(dataset)] *)
| GetTable (name : string)               (* [client.get_table(name)] *)
| Query (sql : string)                   (* [client.query(sql).result()] *)
| Input (prompt : string).               (* [input(prompt)] *)

(** What one call of [input] finds on standard input: a line, the end of
    the input, an interrupt from the keyboard while it waits, or input that
    cannot be read, on which [input] raises another [Exception] with the
    given [str] (a [UnicodeDecodeError] on bytes that are no text, an
    [OSError] or a [ValueError] on a broken or closed standard input). *)
Inductive input_event : Type :=
| Line (text : string)
| Eof
| Interrupt
| Unreadable (msg : string).

(** The client library and the emulator behind it.  [world] is the state of
    the emulator, which every call may change; a call either returns or
    raises an [Exception] whose [str] is the message on the left.
    [missing_field key] is the [str] of the [KeyError] that [row[key]]
    raises when the row has no column [key]. *)
Record bigquery : Type := {
  world : Type;
  client : Type;
  new_client : string -> string -> world -> (string + client) * world;
  client_list_tables : client -> string -> world -> (string + iter table_item) * world;
  client_get_table : client -> string -> world -> (string + table) * world;
  client_query : client -> string -> world -> (string + iter row) * world;
  missing_field : string -> string
}.

(** ** The monad of the script

    A computation takes the state of the emulator and gives back a value or
    the exception it raised, the new state, and the trace of what it did. *)

Definition M (bq : bigquery) (A : Type) : Type :=
  world bq -> (exc + A) * world bq * list event.

Section Monad.

Context {bq : bigquery}.

Definition ret {A : Type} (a : A) : M bq A :=
  fun w => (inr a, w, []).

Definition raise {A : Type} (e : exc) : M bq A :=
  fun w => (inl e, w, []).

Definition bind {A B : Type} (m : M bq A) (k : A -> M bq B) : M bq B :=
  fun w =>
    match m w with
    | (inl e, w1, t1) => (inl e, w1, t1)
    | (inr a, w1, t1) =>
        match k a w1 with
        | (r, w2, t2) => (r, w2, t1 ++ t2)
        end
    end.

(** [print(text)] *)
Definition print (text : string) : M bq unit :=
  fun w => (inr tt, w, [Out text]).

(** [print(a, b)]: the arguments separated by a space. *)
Definition print2 (a b : string) : M bq unit :=
  print (a ++ " " ++ b).

(** A call of the client library: the event, then the answer of the
    emulator, an [Exception] when it is a failure. *)
Definition call {A : Type} (ev : event)
  (f : world bq -> (string + A) * world bq) : M bq A :=
  fun w =>
    match f w with
    | (inl msg, w1) => (inl (Exception msg), w1, [ev])
    | (inr a, w1) => (inr a, w1, [ev])
    end.

(** [try: body / except ...]: [handlers e] is the body of the first
    [except] clause that matches [e], or [None] when none does and the
    exception goes on to the caller. *)
Definition try_except {A : Type} (body : M bq A)
  (handlers : exc -> option (M bq A)) : M bq A :=
  fun w =>
    match body w with
    | (inl e, w1, t1) =>
        match handlers e with
        | Some h =>
            match h w1 with
            | (r, w2, t2) => (r, w2, t1 ++ t2)
            end
        | None => (inl e, w1, t1)
        end
    | (inr a, w1, t1) => (inr a, w1, t1)
    end.

(** The clause [except Exception as e: h]. *)
Definition except_Exception {A : Type} (h : exc -> M bq A)
  : exc -> option (M bq A) :=
  fun e => if is_Exception e then Some (h e) else None.

End Monad.

Declare Scope py_scope.
Delimit Scope py_scope with py.

Notation "x <- m ;; k" := (bind m (fun x => k))
  (at level 61, m at next level, right associativity) : py_scope.
Notation "m ;; k" := (bind m (fun _ => k))
  (at level 61, right associativity) : py_scope.

Open Scope py_scope.

(** ** The script *)

Section Script.

Variable bq : bigquery.

Import PyStr.

(** [for a in it: body a] *)
Fixpoint for_each {A : Type} (it : iter A) (body : A -> M bq unit) : M bq unit :=
  match it with
  | Stop => ret tt
  | Yield a rest => body a ;; for_each rest body
  | Raises msg => raise (Exception msg)
  end.

(** [row[key]] *)
Definition getitem (r : row) (key : string) : M bq value :=
  match lookup r key with
  | Some v => ret v
  | None => raise (Exception (missing_field bq key))
  end.

(** [sys.exit(code)] *)
Definition sys_exit {A : Type} (code : Z) : M bq A :=
  raise (SystemExit code).

(** The line every handler of the functions below prints. *)
Definition error_line (e : exc) : string := "   ❌ Error: " ++ str_exc e.

(** *** [create_client] *)

Definition api_endpoint : string := "http://localhost:9050".
Definition project : string := "test-project".

Definition create_client : M bq (client bq) :=
  call (NewClient api_endpoint project) (new_client bq api_endpoint project).

(** *** [list_tables] *)

Definition dataset_id : string := "test-project.music_metadata".

(** [f"{dataset_id}.{table.table_id}"] *)
Definition table_name (t : table_item) : string :=
  dataset_id ++ "." ++ table_id t.

(** The body of the [for] loop, for one table. *)
Definition show_table (c : client bq) (t : table_item) : M bq unit :=
  print ("   " ++ table_id t) ;;
  table_ref <- call (GetTable (table_name t))
                 (client_get_table bq c (table_name t)) ;;
  print ("      Rows: " ++ str_value (num_rows table_ref)) ;;
  print ("      Schema: " ++ of_nat (length (schema table_ref)) ++ " fields") ;;
  print "".

(** The body of the [try]. *)
Definition list_tables_try (c : client bq) : M bq unit :=
  tables <- call (ListTables dataset_id) (client_list_tables bq c dataset_id) ;;
  for_each tables (show_table c).

(** The [try] statement gives [Some v] when a [return v] ran in it and
    [None] when control falls out of it. *)
Definition list_tables (c : client bq) : M bq bool :=
  print "📋 Available tables:" ;;
  print (repeat_str "-" 60) ;;
  returned <- try_except
    (list_tables_try c ;; ret None)
    (except_Exception (fun e =>
       print (error_line e) ;;
       print "   Make sure the emulator is running and tests have been executed" ;;
       ret (Some false))) ;;
  match returned with
  | Some b => ret b
  | None => ret true
  end.

(** *** [query_firebase_model] *)

Definition count_query : string :=
"
        SELECT COUNT(*) as count 
        FROM `test-project.music_metadata.release_notifications`
    ".

Definition fields_query : string :=
"
        SELECT DISTINCT field.name as field_name
        FROM `test-project.music_metadata.release_notifications`,
        UNNEST(fields) AS field
        ORDER BY field_name
        LIMIT 20
    ".

Definition sample_query : string :=
"
        SELECT 
          (SELECT value FROM UNNEST(fields) WHERE name = 'MessageId') as message_id,
          (SELECT value FROM UNNEST(fields) WHERE name = 'ISRC') as isrc,
          (SELECT value FROM UNNEST(fields) WHERE name LIKE '%TitleText%' LIMIT 1) as title,
          (SELECT value FROM UNNEST(fields) WHERE name = 'DisplayArtistName') as artist,
          (SELECT value FROM UNNEST(fields) WHERE name = 'GenreText') as genre
        FROM `test-project.music_metadata.release_notifications`
        LIMIT 5
    ".

(** [client.query(sql).result()] *)
Definition query_result (c : client bq) (sql : string) : M bq (iter row) :=
  call (Query sql) (client_query bq c sql).

(** The bodies of the three [try] statements. *)
Definition count_step (c : client bq) : M bq unit :=
  results <- query_result c count_query ;;
  for_each results (fun r =>
    v <- getitem r "count" ;;
    print ("   Total rows: " ++ str_value v)).

Definition fields_step (c : client bq) : M bq unit :=
  results <- query_result c fields_query ;;
  for_each results (fun r =>
    v <- getitem r "field_name" ;;
    print ("     - " ++ str_value v)).

Definition sample_step (c : client bq) : M bq unit :=
  results <- query_result c sample_query ;;
  for_each results (fun r =>
    print "" ;;
    message_id <- getitem r "message_id" ;;
    print ("     Message ID: " ++ or_na message_id) ;;
    isrc <- getitem r "isrc" ;;
    print ("     ISRC: " ++ or_na isrc) ;;
    title <- getitem r "title" ;;
    print ("     Title: " ++ or_na title) ;;
    artist <- getitem r "artist" ;;
    print ("     Artist: " ++ or_na artist) ;;
    genre <- getitem r "genre" ;;
    print ("     Genre: " ++ or_na genre)).

(** The clause [except Exception as e: print(...)] of the second and the
    third [try]. *)
Definition report : exc -> option (M bq unit) :=
  except_Exception (fun e => print (error_line e)).

(** The handler of the first [try] ends with [return]; the others do not. *)
Definition query_firebase_model (c : client bq) : M bq unit :=
  print (nl ++ "🔍 Querying Firebase model data:") ;;
  print (repeat_str "-" 60) ;;
  returned <- try_except
    (count_step c ;; ret None)
    (except_Exception (fun e => print (error_line e) ;; ret (Some tt))) ;;
  match returned with
  | Some v => ret v
  | None =>
      print (nl ++ "   Field names (first 20):") ;;
      try_except (fields_step c) report ;;
      print (nl ++ "   🎵 Music releases:") ;;
      try_except (sample_step c) report
  end.

(** *** [run_custom_query] *)

(** The [for i, row in enumerate(results)] loop, from index [i] on. *)
Fixpoint print_rows (i : nat) (results : iter row) : M bq unit :=
  match results with
  | Stop => ret tt
  | Raises msg => raise (Exception msg)
  | Yield r rest =>
      (if Nat.eqb i 0
       then print2 "   " (join " | " (keys r)) ;;
            print2 "   " (repeat_str "-" 60)
       else ret tt) ;;
      print2 "   " (join " | " (map str_value (values r))) ;;
      if Nat.leb 9 i then ret tt else print_rows (S i) rest
  end.

(** The body of the [try]. *)
Definition run_custom_query_try (c : client bq) (sql : string) : M bq unit :=
  results <- query_result c sql ;;
  print_rows 0 results.

Definition run_custom_query (c : client bq) (sql : string) : M bq unit :=
  print (nl ++ "🔍 Custom query:") ;;
  print (repeat_str "-" 60) ;;
  print ("SQL: " ++ sql) ;;
  print "" ;;
  try_except (run_custom_query_try c sql) report.

(** *** [main] *)

Definition prompt : string := nl ++ "SQL> ".

(** [input(prompt)], finding [ev] on standard input. *)
Definition input (ev : input_event) : M bq string :=
  fun w =>
    match ev with
    | Line text => (inr text, w, [Input prompt])
    | Eof => (inl EOFError, w, [Input prompt])
    | Interrupt => (inl KeyboardInterrupt, w, [Input prompt])
    | Unreadable msg => (inl (Exception msg), w, [Input prompt])
    end.

(** How one round of the [while True] loop ends: [break], or on to the
    next round ([continue] or the end of the body). *)
Inductive loop_exit : Type :=
| Break
| Continue.

Definition quit_tokens : list string := ["quit"; "exit"; "q"].

(** The body of the [try] in the loop. *)
Definition loop_try (c : client bq) (ev : input_event) : M bq loop_exit :=
  line <- input ev ;;
  let query := strip line in
  if mem (lower query) quit_tokens then ret Break
  else if is_empty query then ret Continue
  else run_custom_query c query ;; ret Continue.

(** One round of the loop. *)
Definition loop_body (c : client bq) (ev : input_event) : M bq loop_exit :=
  try_except (loop_try c ev)
    (fun e =>
       match e with
       | KeyboardInterrupt =>
           Some (print (nl ++ nl ++ "Exiting...") ;; ret Break)
       | EOFError => Some (ret Break)
       | _ => None
       end).

(** The loop, over what standard input holds; it gives back what it left
    unread.  When nothing is left, [input] finds the end of the input. *)
Fixpoint interactive_loop (c : client bq) (stdin : list input_event)
  : M bq (list input_event) :=
  match stdin with
  | [] => loop_body c Eof ;; ret []
  | ev :: rest =>
      how <- loop_body c ev ;;
      match how with
      | Break => ret rest
      | Continue => interactive_loop c rest
      end
  end.

(** The body of the first [try] of [main]. *)
Definition connect : M bq (client bq) :=
  c <- create_client ;;
  print "✅ Connected to BigQuery emulator at http://localhost:9050" ;;
  print "" ;;
  ret c.

Definition main (stdin : list input_event) : M bq (list input_event) :=
  print "🎵 BigQuery Emulator Query Tool" ;;
  print (repeat_str "=" 60) ;;
  print "" ;;
  c <- try_except connect
    (except_Exception (fun e =>
       print ("❌ Failed to connect to emulator: " ++ str_exc e) ;;
       print "" ;;
       print "Make sure:" ;;
       print "  1. Emulator is running: ./scripts/load-ddex-to-bigquery-local.sh skip-tests" ;;
       print "  2. Port 9050 is accessible" ;;
       sys_exit 1)) ;;
  ok <- list_tables c ;;
  (if negb ok then sys_exit 1 else ret tt) ;;
  query_firebase_model c ;;
  print (nl ++ repeat_str "=" 60) ;;
  print "💡 Interactive query mode" ;;
  print "   Enter SQL queries or 'quit' to exit" ;;
  print (repeat_str "=" 60) ;;
  interactive_loop c stdin.

End Script.

(** ** The process *)

(** The exit status of the interpreter when [main()] ends with [r]: 0 when
    it returns, the code of a [SystemExit], 1 after the traceback of any
    other exception nobody caught, 130 for a [KeyboardInterrupt]. *)
Definition exit_status {A : Type} (r : exc + A) : Z :=
  match r with
  | inr _ => 0
  | inl (SystemExit code) => code
  | inl KeyboardInterrupt => 130
  | inl (Exception _) | inl EOFError => 1
  end.

(** What an observer sees of a run. *)
Definition result_of {W A : Type} (x : (exc + A) * W * list event) : exc + A :=
  fst (fst x).
Definition trace_of {W A : Type} (x : (exc + A) * W * list event) : list event :=
  snd x.
Definition world_of {W A : Type} (x : (exc + A) * W * list event) : W :=
  snd (fst x).

(** ** Emulators to run the script on

    Small emulators, used to run the embedding on concrete inputs.  The
    state of an emulator counts the requests it has served; a request is
    answered from fixed data. *)

Definition emulator (conn : string + unit) (tables : string + iter table_item)
  (metadata : string -> string + table) (answer : string -> string + iter row)
  : bigquery :=
  {| world := nat;
     client := unit;
     new_client := fun _ _ n => (conn, S n);
     client_list_tables := fun _ _ n => (tables, S n);
     client_get_table := fun _ name n => (metadata name, S n);
     client_query := fun _ sql n => (answer sql, S n);
     missing_field := fun key => ("no row field '" ++ key ++ "'")%string |}.

(** The dataset as the loading script leaves it: two tables. *)
Definition loaded_tables : iter table_item :=
  Yield {| table_id := "release_notifications" |}
    (Yield {| table_id := "parties" |} Stop).

Definition loaded_metadata (name : string) : string + table :=
  if String.eqb name "test-project.music_metadata.release_notifications"
  then inr {| num_rows := VInt 2; schema := ["fields"] |}
  else if String.eqb name "test-project.music_metadata.parties"
  then inr {| num_rows := VInt 7; schema := ["id"; "name"] |}
  else inl ("Not found: Table " ++ name)%string.

(** The rows of [SELECT n FROM numbers]: twelve of them. *)
Definition numbers : list row :=
  map (fun z => [("n", VInt z); ("even", VBool (Z.even z))])
    [1; 2; 3; 4; 5; 6; 7; 8; 9; 10; 11; 12]%Z.

Definition loaded_answer (sql : string) : string + iter row :=
  if String.eqb sql (count_query)
  then inr (Yield [("count", VInt 2)] Stop)
  else if String.eqb sql (fields_query)
  then inr (Yield [("field_name", VStr "ISRC")]
             (Yield [("field_name", VStr "MessageId")] Stop))
  else if String.eqb sql (sample_query)
  then inr (Yield [("message_id", VStr "MSG001"); ("isrc", VStr "USABC2500001");
                   ("title", VStr "First Song"); ("artist", VNone);
                   ("genre", VStr "")] Stop)
  else if String.eqb sql "SELECT n FROM numbers"
  then inr (of_list numbers)
  else if String.eqb sql "SELECT 1 WHERE FALSE"
  then inr Stop
  else inl ("Syntax error: Unexpected identifier in " ++ sql)%string.

(** The emulator after the data was loaded. *)
Definition loaded : bigquery :=
  emulator (inr tt) (inr loaded_tables) loaded_metadata loaded_answer.

(** An emulator nothing was loaded into: the dataset is not there. *)
Definition not_found : string := "404 Not found: Dataset test-project:music_metadata".

Definition unloaded : bigquery :=
  emulator (inr tt) (inl not_found) (fun name => inl ("Not found: Table " ++ name)%string)
    (fun _ => inl not_found).

(** An emulator that lists three tables and has lost the second. *)
Definition half_loaded : bigquery :=
  emulator (inr tt)
    (inr (Yield {| table_id := "release_notifications" |}
           (Yield {| table_id := "parties" |}
             (Yield {| table_id := "deals" |} Stop))))
    (fun name =>
       if String.eqb name "test-project.music_metadata.parties"
       then inl ("Not found: Table " ++ name)%string
       else loaded_metadata name)
    loaded_answer.

(** An emulator whose dataset is there and empty: the listing yields
    nothing and the table of the diagnostics is missing. *)
Definition no_table : string :=
  "404 Not found: Table test-project:music_metadata.release_notifications".

Definition empty_dataset : bigquery :=
  emulator (inr tt) (inr Stop) (fun name => inl ("Not found: Table " ++ name)%string)
    (fun _ => inl no_table).

(** An emulator whose dataset is empty and that answers the row count
    only. *)
Definition count_only : bigquery :=
  emulator (inr tt) (inr Stop) (fun name => inl ("Not found: Table " ++ name)%string)
    (fun sql =>
       if String.eqb sql (count_query)
       then inr (Yield [("count", VInt 0)] Stop)
       else inl "400 Unrecognized name: fields").

(** No emulator listens: building the client fails. *)
Definition unreachable : bigquery :=
  emulator (inl "Connection refused") (inl "Connection refused")
    (fun _ => inl "Connection refused") (fun _ => inl "Connection refused").

(** ** What a trace and an emulator tell *)

(** The SQL texts a trace sent to the emulator, in order. *)
Fixpoint queries (t : list event) : list string :=
  match t with
  | [] => []
  | Query sql :: t' => sql :: queries t'
  | _ :: t' => queries t'
  end.

(** The number of prompts a trace shows. *)
Fixpoint prompts (t : list event) : nat :=
  match t with
  | [] => 0
  | Input _ :: t' => S (prompts t')
  | _ :: t' => prompts t'
  end.

(** The iterator that yields the items of [l] and goes on as [it]. *)
Fixpoint prepend {A : Type} (l : list A) (it : iter A) : iter A :=
  match l with
  | [] => it
  | a :: l' => Yield a (prepend l' it)
  end.

(** The lines [list_tables] starts with, and the ones its handler prints. *)
Definition listing_header : list event :=
  [Out "📋 Available tables:"; Out (PyStr.repeat_str "-" 60)].

Definition listing_failure (e : exc) : list event :=
  [Out (error_line e);
   Out "   Make sure the emulator is running and tests have been executed"].

Section Emulator.

Variable bq : bigquery.
Variable c : client bq.

(** The emulator has the metadata of every table the iterator yields, and
    the iterator stops without raising. *)
Fixpoint metadata_ok (tables : iter table_item) (w : world bq) : bool :=
  match tables with
  | Stop => true
  | Raises _ => false
  | Yield t rest =>
      match client_get_table bq c (table_name t) w with
      | (inl _, _) => false
      | (inr _, w1) => metadata_ok rest w1
      end
  end.

(** The emulator, in state [w], lists the dataset of the script and has
    the metadata of each of its tables. *)
Definition listing_completes (w : world bq) : bool :=
  match client_list_tables bq c dataset_id w with
  | (inl _, _) => false
  | (inr tables, w1) => metadata_ok tables w1
  end.

End Emulator.

(** The lines [run_custom_query] starts with. *)
Definition query_preamble (sql : string) : list event :=
  [Out (PyStr.nl ++ "🔍 Custom query:");
   Out (PyStr.repeat_str "-" 60);
   Out ("SQL: " ++ sql);
   Out ""].

(** The header, the separator under it and the line of a row, as
    [run_custom_query] prints them. *)
Definition header_line (r : row) : string :=
  "   " ++ " " ++ PyStr.join " | " (keys r).

Definition separator_line : string :=
  "   " ++ " " ++ PyStr.repeat_str "-" 60.

Definition row_line (r : row) : string :=
  "   " ++ " " ++ PyStr.join " | " (map str_value (values r)).

(** The header of a table with the given rows: there is none without a
    first row to take the column names from. *)
Definition table_header (rows : list row) : list event :=
  match rows with
  | [] => []
  | r :: _ => [Out (header_line r); Out separator_line]
  end.

(** The lines of the rows. *)
Definition row_lines (rows : list row) : list event :=
  map (fun r => Out (row_line r)) rows.

(** An event that is a printed line. *)
Definition is_Out (ev : event) : Prop :=
  match ev with
  | Out _ => True
  | _ => False
  end.

(** A computation that only prints: it leaves the emulator as it is, its
    trace holds printed lines only, and what it raises is an [Exception]
    with a message. *)
Definition prints_only {bq : bigquery} {A : Type} (m : M bq A) : Prop :=
  forall w : world bq,
    world_of (m w) = w
    /\ Forall is_Out (trace_of (m w))
    /\ forall e, result_of (m w) = inl e -> exists msg, e = Exception msg.

(** The lines [query_firebase_model] starts with, and the titles of its
    second and third part. *)
Definition diagnostics_header : list event :=
  [Out (PyStr.nl ++ "🔍 Querying Firebase model data:");
   Out (PyStr.repeat_str "-" 60)].

Definition fields_title : event := Out (PyStr.nl ++ "   Field names (first 20):").

Definition releases_title : event := Out (PyStr.nl ++ "   🎵 Music releases:").

(** What a handler that only reports adds to the trace of its [try]. *)
Definition reported {A : Type} (r : exc + A) : list event :=
  match r with
  | inl e => [Out (error_line e)]
  | inr _ => []
  end.

(** [needle in text], for strings. *)
Definition contains (needle text : string) : bool :=
  match String.index 0 needle text with
  | Some _ => true
  | None => false
  end.

(** The table of the diagnostics, as the three queries name it. *)
Definition diagnostics_table : string :=
  "FROM `test-project.music_metadata.release_notifications`".

(** The inputs that end the interactive loop with [break]: a line that is
    a quit token once stripped and lowered, the end of the input, an
    interrupt. *)
Definition ends_loop (ev : input_event) : bool :=
  match ev with
  | Line text => PyStr.mem (PyStr.lower (PyStr.strip text)) quit_tokens
  | Eof | Interrupt => true
  | Unreadable _ => false
  end.

(** The inputs on which [input] raises what the loop does not catch. *)
Definition unreadable (ev : input_event) : bool :=
  match ev with
  | Unreadable _ => true
  | Line _ | Eof | Interrupt => false
  end.

(** The inputs after which the loop goes on to its next round. *)
Definition goes_on (ev : input_event) : bool :=
  negb (ends_loop ev) && negb (unreadable ev).

(** How the loop ends at an input after which it does not go on: with the
    exception of [input] when the input cannot be read, and otherwise with
    the inputs after it left unread. *)
Definition stopped (ev : input_event) (rest : list input_event)
  : exc + list input_event :=
  match ev with
  | Unreadable msg => inl (Exception msg)
  | Line _ | Eof | Interrupt => inr rest
  end.

(** After every input of the list the loop goes on. *)
Definition all_go_on (stdin : list input_event) : bool :=
  forallb goes_on stdin.

(** The loop comes to an input that cannot be read. *)
Fixpoint reaches_unreadable (stdin : list input_event) : bool :=
  match stdin with
  | [] => false
  | ev :: rest => unreadable ev || (goes_on ev && reaches_unreadable rest)
  end.

(** The strings made of white space only. *)
Inductive all_white : string -> Prop :=
| white_nil : all_white EmptyString
| white_cons (w s : string) :
    In w PyStr.white_space -> all_white s -> all_white (w ++ s).

(** A non-breaking space and an ideographic space, U+00A0 and U+3000. *)
Definition nbsp : string := PyStr.of_bytes [194; 160].
Definition wide_space : string := PyStr.of_bytes [227; 128; 128].

(** What [main] prints first, after a successful and after a failed
    connection, and before the loop. *)
Definition banner : list event :=
  [Out "🎵 BigQuery Emulator Query Tool"; Out (PyStr.repeat_str "=" 60); Out ""].

Definition connected : list event :=
  [NewClient api_endpoint project;
   Out "✅ Connected to BigQuery emulator at http://localhost:9050";
   Out ""].

Definition connection_failure (e : exc) : list event :=
  [NewClient api_endpoint project;
   Out ("❌ Failed to connect to emulator: " ++ str_exc e);
   Out "";
   Out "Make sure:";
   Out "  1. Emulator is running: ./scripts/load-ddex-to-bigquery-local.sh skip-tests";
   Out "  2. Port 9050 is accessible"].

Definition loop_banner : list event :=
  [Out (PyStr.nl ++ PyStr.repeat_str "=" 60);
   Out "💡 Interactive query mode";
   Out "   Enter SQL queries or 'quit' to exit";
   Out (PyStr.repeat_str "=" 60)].

Section Startup.

Variable bq : bigquery.



End Startup.

(** The tables a trace asked the metadata of, in order. *)
Fixpoint table_requests (t : list event) : list string :=
  match t with
  | [] => []
  | GetTable name :: t' => name :: table_requests t'
  | _ :: t' => table_requests t'
  end.

(** The texts the interactive loop hands to [run_custom_query], given what
    standard input holds: the lines, stripped, up to the first input after
    which the loop does not go on, the blank ones left out. *)
Fixpoint submitted (stdin : list input_event) : list string :=
  match stdin with
  | [] => []
  | ev :: rest =>
      if goes_on ev
      then match ev with
           | Line text =>
               if PyStr.is_empty (PyStr.strip text) then submitted rest
               else PyStr.strip text :: submitted rest
           | Eof | Interrupt | Unreadable _ => []
           end
      else []
  end.


(** The six lines the third part of the diagnostics prints for a row that
    has the five columns, and [None] for a row that lacks one. *)
Definition release_lines (r : row) : option (list event) :=
  match lookup r "message_id", lookup r "isrc", lookup r "title",
        lookup r "artist", lookup r "genre" with
  | Some message_id, Some isrc, Some title, Some artist, Some genre =>
      Some [Out "";
            Out ("     Message ID: " ++ or_na message_id);
            Out ("     ISRC: " ++ or_na isrc);
            Out ("     Title: " ++ or_na title);
            Out ("     Artist: " ++ or_na artist);
            Out ("     Genre: " ++ or_na genre)]
  | _, _, _, _, _ => None
  end.

(** The lines of all the rows, as far as they have the five columns. *)
Fixpoint releases (rows : list row) : list event :=
  match rows with
  | [] => []
  | r :: rows' =>
      match release_lines r with
      | Some lines => lines ++ releases rows'
      | None => []
      end
  end.

(** An emulator with a failing backend: the dataset is empty, the row
    count comes back under another column name, one result breaks after
    two rows and another after ten; every other query is refused. *)
Definition backend_down : string := "503 Service Unavailable".

Definition flaky_answer (sql : string) : string + iter row :=
  if String.eqb sql count_query
  then inr (Yield [("total", VInt 3)] Stop)
  else if String.eqb sql "SELECT n FROM numbers"
  then inr (prepend (firstn 2 numbers) (Raises backend_down))
  else if String.eqb sql "SELECT n FROM numbers ORDER BY n"
  then inr (prepend (firstn 10 numbers) (Raises backend_down))
  else inl backend_down.

Definition flaky : bigquery :=
  emulator (inr tt) (inr Stop) (fun _ => inl backend_down) flaky_answer.

(** * Properties *)

Open Scope nat_scope.

(** ** The Python functions on small inputs *)

Example repeat_str_3 : PyStr.repeat_str "-" 3 = "---"%string.
Proof. reflexivity. Qed.

Example strip_example : PyStr.strip "  SELECT 1  " = "SELECT 1"%string.
Proof. reflexivity. Qed.

Example lower_example : PyStr.lower "QuIt" = "quit"%string.
Proof. reflexivity. Qed.

Example of_Z_examples :
  PyStr.of_Z 42 = "42"%string /\ PyStr.of_Z 0 = "0"%string
  /\ PyStr.of_Z (-7) = "-7"%string.
Proof. repeat split; reflexivity. Qed.

Example strip_lower_examples :
  PyStr.lower (PyStr.strip " QUIT ") = "quit"%string
  /\ PyStr.lower (PyStr.strip "Exit") = "exit"%string
  /\ PyStr.strip "   " = ""%string.
Proof. repeat split; reflexivity. Qed.

Example or_na_examples :
  or_na VNone = "N/A"%string /\ or_na (VStr "") = "N/A"%string
  /\ or_na (VStr "USABC2500001") = "USABC2500001"%string.
Proof. repeat split; reflexivity. Qed.

(** ** Running the monad *)

Section Runs.

Context {bq : bigquery}.

Lemma run_eta {A : Type} (x : (exc + A) * world bq * list event) :
  x = (result_of x, world_of x, trace_of x).
Proof. destruct x as [[r w] t]. reflexivity. Qed.

Lemma bind_returned {A B : Type} (m : M bq A) (k : A -> M bq B) w a w1 t1 :
  m w = (inr a, w1, t1) ->
  bind m k w =
  (result_of (k a w1), world_of (k a w1), t1 ++ trace_of (k a w1)).
Proof.
  intro E. unfold bind. rewrite E.
  destruct (k a w1) as [[r w2] t2]. reflexivity.
Qed.

Lemma bind_raised {A B : Type} (m : M bq A) (k : A -> M bq B) w e w1 t1 :
  m w = (inl e, w1, t1) ->
  bind m k w = (inl e, w1, t1).
Proof. intro E. unfold bind. rewrite E. reflexivity. Qed.

Lemma print_then {B : Type} (text : string) (k : M bq B) w :
  (print text ;; k) w =
  (result_of (k w), world_of (k w), Out text :: trace_of (k w)).
Proof. apply (bind_returned (print text) (fun _ => k) w tt w [Out text]). reflexivity. Qed.

Lemma try_returned {A : Type} (body : M bq A) handlers w a w1 t1 :
  body w = (inr a, w1, t1) ->
  try_except body handlers w = (inr a, w1, t1).
Proof. intro E. unfold try_except. rewrite E. reflexivity. Qed.

Lemma try_caught {A : Type} (body : M bq A) handlers w e h w1 t1 :
  body w = (inl e, w1, t1) ->
  handlers e = Some h ->
  try_except body handlers w =
  (result_of (h w1), world_of (h w1), t1 ++ trace_of (h w1)).
Proof.
  intros E H. unfold try_except. rewrite E, H.
  destruct (h w1) as [[r w2] t2]. reflexivity.
Qed.

End Runs.

(** ** [list_tables] *)

Section ListTables.

Variable bq : bigquery.
Variable c : client bq.

Lemma show_table_run (t : table_item) (w : world bq) :
  show_table bq c t w =
  match client_get_table bq c (table_name t) w with
  | (inl msg, w1) =>
      (inl (Exception msg), w1,
       [Out ("   " ++ table_id t); GetTable (table_name t)])
  | (inr table_ref, w1) =>
      (inr tt, w1,
       [Out ("   " ++ table_id t); GetTable (table_name t);
        Out ("      Rows: " ++ str_value (num_rows table_ref));
        Out ("      Schema: " ++ PyStr.of_nat (length (schema table_ref)) ++ " fields");
        Out ""])
  end.
Proof.
  unfold show_table, bind, call, print.
  destruct (client_get_table bq c _ w) as [[msg|table_ref] w1]; reflexivity.
Qed.

Lemma for_each_show_tables (tables : iter table_item) :
  forall w,
    if metadata_ok bq c tables w
    then result_of (for_each bq tables (show_table bq c) w) = inr tt
    else exists msg,
        result_of (for_each bq tables (show_table bq c) w) = inl (Exception msg).
Proof.
  induction tables as [|t rest IH|msg]; intro w; cbn [metadata_ok for_each].
  - reflexivity.
  - unfold bind. rewrite show_table_run.
    destruct (client_get_table bq c (table_name t) w) as [[msg|table_ref] w1].
    + exists msg. reflexivity.
    + specialize (IH w1).
      destruct (for_each bq rest (show_table bq c) w1) as [[r w2] t2].
      exact IH.
  - exists msg. reflexivity.
Qed.


Lemma for_each_prepend {A : Type} (l : list A) (it : iter A) (body : A -> M bq unit) :
  forall w,
    result_of (for_each bq (of_list l) body w) = inr tt ->
    for_each bq (prepend l it) body w =
    (result_of (for_each bq it body (world_of (for_each bq (of_list l) body w))),
     world_of (for_each bq it body (world_of (for_each bq (of_list l) body w))),
     trace_of (for_each bq (of_list l) body w)
     ++ trace_of (for_each bq it body (world_of (for_each bq (of_list l) body w)))).
Proof.
  induction l as [|a l IH]; intros w H; cbn [of_list prepend for_each] in *.
  - cbn. apply run_eta.
  - unfold bind in *.
    destruct (body a w) as [[[e|[]] w1] t1]; [discriminate H|].
    specialize (IH w1).
    destruct (for_each bq (of_list l) body w1) as [[r w2] t2].
    rewrite IH by exact H. cbn. rewrite app_assoc. reflexivity.
Qed.

Lemma list_tables_try_run (w : world bq) :
  list_tables_try bq c w =
  match client_list_tables bq c dataset_id w with
  | (inl msg, w1) => (inl (Exception msg), w1, [ListTables dataset_id])
  | (inr tables, w1) =>
      (result_of (for_each bq tables (show_table bq c) w1),
       world_of (for_each bq tables (show_table bq c) w1),
       ListTables dataset_id :: trace_of (for_each bq tables (show_table bq c) w1))
  end.
Proof.
  unfold list_tables_try, bind, call.
  destruct (client_list_tables bq c dataset_id w) as [[msg|tables] w1].
  - reflexivity.
  - destruct (for_each bq tables (show_table bq c) w1) as [[r w2] t2]. reflexivity.
Qed.

Lemma list_tables_try_result (w : world bq) :
  if listing_completes bq c w
  then result_of (list_tables_try bq c w) = inr tt
  else exists msg, result_of (list_tables_try bq c w) = inl (Exception msg).
Proof.
  rewrite list_tables_try_run. unfold listing_completes.
  destruct (client_list_tables bq c dataset_id w) as [[msg|tables] w1].
  - exists msg. reflexivity.
  - apply for_each_show_tables.
Qed.

Lemma list_tables_run (w : world bq) :
  list_tables bq c w =
  match list_tables_try bq c w with
  | (inr _, w1, t1) => (inr true, w1, listing_header ++ t1)
  | (inl e, w1, t1) =>
      if is_Exception e
      then (inr false, w1, listing_header ++ t1 ++ listing_failure e)
      else (inl e, w1, listing_header ++ t1)
  end.
Proof.
  unfold list_tables, bind, try_except, except_Exception, print, ret.
  destruct (list_tables_try bq c w) as [[[e|[]] w1] t1].
  - destruct (is_Exception e); cbn; rewrite ?app_nil_r; reflexivity.
  - cbn. rewrite !app_nil_r. reflexivity.
Qed.

Lemma list_tables_result (w : world bq) :
  result_of (list_tables bq c w) = inr (listing_completes bq c w).
Proof.
  rewrite list_tables_run.
  pose proof (list_tables_try_result w) as H.
  destruct (listing_completes bq c w).
  - destruct (list_tables_try bq c w) as [[[e|[]] w1] t1]; [discriminate H|].
    reflexivity.
  - destruct H as [msg H].
    destruct (list_tables_try bq c w) as [[[e|[]] w1] t1]; [|discriminate H].
    cbn in H. injection H as ->. reflexivity.
Qed.

(** C9. [list_tables] never lets an exception through to its caller: it
    returns [True] exactly when the emulator lists the dataset and has the
    metadata of every table, which is exactly when the body of its [try]
    runs to its end, and [False] otherwise.  When the metadata of a table
    cannot be fetched, the tables before it have been printed, the handler
    prints its two lines, and the tables after it are not looked at. *)
Theorem list_tables_returns_whether_listing_completed :
  forall w : world bq,
    result_of (list_tables bq c w) = inr (listing_completes bq c w)
    /\ (listing_completes bq c w = true <->
        result_of (list_tables_try bq c w) = inr tt)
    /\ forall before bad rest w1 msg w3,
        client_list_tables bq c dataset_id w
        = (inr (prepend before (Yield bad rest)), w1) ->
        result_of (for_each bq (of_list before) (show_table bq c) w1) = inr tt ->
        client_get_table bq c (table_name bad)
          (world_of (for_each bq (of_list before) (show_table bq c) w1))
        = (inl msg, w3) ->
        list_tables bq c w =
        (inr false, w3,
         listing_header ++ [ListTables dataset_id]
         ++ trace_of (for_each bq (of_list before) (show_table bq c) w1)
         ++ [Out ("   " ++ table_id bad); GetTable (table_name bad)]
         ++ listing_failure (Exception msg)).
Proof.
  intro w. split; [|split].
  - apply list_tables_result.
  - pose proof (list_tables_try_result w) as H.
    destruct (listing_completes bq c w).
    + split; intros _; [exact H|reflexivity].
    + destruct H as [msg H]. rewrite H. split; discriminate.
  - intros before bad rest w1 msg w3 Hlist Hbefore Hbad.
    rewrite list_tables_run, list_tables_try_run, Hlist.
    rewrite (for_each_prepend before (Yield bad rest) (show_table bq c) w1 Hbefore).
    cbn [for_each]. unfold bind. rewrite show_table_run, Hbad.
    cbn. rewrite <- app_assoc. reflexivity.
Qed.

End ListTables.

(** On the emulator that lost its second table, the first table is printed,
    the second is asked for, and the third is never reached. *)
Lemma list_tables_aborts_at_second_table :
  list_tables half_loaded tt 0%nat =
  (inr false, 3%nat,
   [Out "📋 Available tables:";
    Out "------------------------------------------------------------";
    ListTables "test-project.music_metadata";
    Out "   release_notifications";
    GetTable "test-project.music_metadata.release_notifications";
    Out "      Rows: 2";
    Out "      Schema: 1 fields";
    Out "";
    Out "   parties";
    GetTable "test-project.music_metadata.parties";
    Out "   ❌ Error: Not found: Table test-project.music_metadata.parties";
    Out "   Make sure the emulator is running and tests have been executed"]).
Proof.
  destruct (list_tables_returns_whether_listing_completed half_loaded tt 0%nat)
    as (_ & _ & H).
  exact (H [{| table_id := "release_notifications" |}]
           {| table_id := "parties" |}
           (Yield {| table_id := "deals" |} Stop)
           1%nat "Not found: Table test-project.music_metadata.parties" 3%nat
           eq_refl eq_refl eq_refl).
Defined.

(** ** [run_custom_query] *)

Section RunCustomQuery.

Variable bq : bigquery.
Variable c : client bq.

(** The loop over the rows, from index [i] on: it prints the header when it
    starts at 0, then the rows up to index 9, and looks no further. *)
Lemma print_rows_run (results : iter row) :
  forall (i : nat) (w : world bq),
    i <= 9 ->
    print_rows bq i results w =
    (if length (yielded results) <? 10 - i
     then match ending results with
          | None => inr tt
          | Some msg => inl (Exception msg)
          end
     else inr tt,
     w,
     (if i =? 0 then table_header (yielded results) else [])
     ++ row_lines (firstn (10 - i) (yielded results))).
Proof.
  induction results as [|r rest IH|msg]; intros i w Hi.
  - cbn [print_rows yielded ending length]. unfold ret.
    replace (0 <? 10 - i) with true by (symmetry; apply Nat.ltb_lt; lia).
    rewrite firstn_nil. destruct (i =? 0); reflexivity.
  - cbn [print_rows yielded ending length].
    replace (10 - i) with (S (9 - i)) by lia.
    cbn [firstn row_lines map].
    destruct (Nat.leb 9 i) eqn:E9.
    + apply Nat.leb_le in E9. replace (9 - i) with 0 by lia.
      replace (S (length (yielded rest)) <? 1) with false
        by (symmetry; apply Nat.ltb_ge; lia).
      destruct (i =? 0); reflexivity.
    + apply Nat.leb_gt in E9.
      assert (Hrec : print_rows bq (S i) rest w =
                     (if length (yielded rest) <? 9 - i
                      then match ending rest with
                           | None => inr tt
                           | Some msg => inl (Exception msg)
                           end
                      else inr tt,
                      w, row_lines (firstn (9 - i) (yielded rest)))).
      { rewrite IH by lia. replace (10 - S i) with (9 - i) by lia. reflexivity. }
      replace (S (length (yielded rest)) <? S (9 - i))
        with (length (yielded rest) <? 9 - i) by reflexivity.
      destruct (i =? 0); unfold bind, print2, print, ret; rewrite Hrec; reflexivity.
  - cbn [print_rows yielded ending length]. unfold raise.
    replace (0 <? 10 - i) with true by (symmetry; apply Nat.ltb_lt; lia).
    rewrite firstn_nil. destruct (i =? 0); reflexivity.
Qed.

Lemma run_custom_query_try_run (sql : string) (w : world bq) :
  run_custom_query_try bq c sql w =
  match client_query bq c sql w with
  | (inl msg, w1) => (inl (Exception msg), w1, [Query sql])
  | (inr results, w1) =>
      (if length (yielded results) <? 10
       then match ending results with
            | None => inr tt
            | Some msg => inl (Exception msg)
            end
       else inr tt,
       w1,
       Query sql :: table_header (yielded results)
       ++ row_lines (firstn 10 (yielded results)))
  end.
Proof.
  unfold run_custom_query_try, query_result, bind, call.
  destruct (client_query bq c sql w) as [[msg|results] w1].
  - reflexivity.
  - rewrite print_rows_run by lia. reflexivity.
Qed.

Lemma run_custom_query_try_raises (sql : string) (w : world bq) (e : exc) :
  result_of (run_custom_query_try bq c sql w) = inl e ->
  exists msg, e = Exception msg.
Proof.
  rewrite run_custom_query_try_run.
  destruct (client_query bq c sql w) as [[msg|results] w1];
    unfold result_of; cbn [fst].
  - intro H. exists msg. congruence.
  - destruct (length (yielded results) <? 10); [|discriminate].
    destruct (ending results) as [msg|]; [|discriminate].
    intro H. exists msg. congruence.
Qed.

Lemma run_custom_query_run (sql : string) (w : world bq) :
  run_custom_query bq c sql w =
  match run_custom_query_try bq c sql w with
  | (inr _, w1, t1) => (inr tt, w1, query_preamble sql ++ t1)
  | (inl e, w1, t1) =>
      (inr tt, w1, query_preamble sql ++ t1 ++ [Out (error_line e)])
  end.
Proof.
  pose proof (run_custom_query_try_raises sql w) as Hraises.
  unfold run_custom_query, bind, try_except, report, except_Exception, print.
  destruct (run_custom_query_try bq c sql w) as [[[e|[]] w1] t1].
  - destruct (Hraises e eq_refl) as [msg ->]. reflexivity.
  - reflexivity.
Qed.

(** C5. When the result of a custom query has more than ten rows,
    [run_custom_query] prints the header once (the column names of the first
    row and the separator), then the first ten rows, and nothing after them,
    whatever else the result holds. *)
Theorem run_custom_query_truncates_after_ten_rows :
  forall (sql : string) (w : world bq) (results : iter row) (w1 : world bq),
    client_query bq c sql w = (inr results, w1) ->
    10 < length (yielded results) ->
    exists (first : row) (others : list row),
      yielded results = first :: others
      /\ run_custom_query bq c sql w =
         (inr tt, w1,
          query_preamble sql
          ++ [Query sql; Out (header_line first); Out separator_line]
          ++ row_lines (firstn 10 (yielded results)))
      /\ length (row_lines (firstn 10 (yielded results))) = 10.
Proof.
  intros sql w results w1 Hq Hlen.
  destruct (yielded results) as [|first others] eqn:Hy; [cbn in Hlen; lia|].
  exists first, others. split; [reflexivity|]. split.
  - rewrite run_custom_query_run, run_custom_query_try_run, Hq, Hy.
    replace (length (first :: others) <? 10) with false
      by (symmetry; apply Nat.ltb_ge; lia).
    reflexivity.
  - unfold row_lines. rewrite length_map, length_firstn. lia.
Qed.

(** What [run_custom_query] leaves on the trace once the emulator has
    answered with a result. *)
Lemma run_custom_query_trace (sql : string) (w : world bq) results w1 :
  client_query bq c sql w = (inr results, w1) ->
  trace_of (run_custom_query bq c sql w) =
  query_preamble sql
  ++ [Query sql]
  ++ table_header (yielded results)
  ++ row_lines (firstn 10 (yielded results))
  ++ (if length (yielded results) <? 10
      then match ending results with
           | None => []
           | Some msg => [Out (error_line (Exception msg))]
           end
      else []).
Proof.
  intro Hq. rewrite run_custom_query_run, run_custom_query_try_run, Hq.
  destruct (length (yielded results) <? 10).
  - destruct (ending results) as [msg|]; cbn [trace_of snd app].
    + rewrite <- app_assoc. reflexivity.
    + rewrite app_nil_r. reflexivity.
  - cbn [trace_of snd app]. rewrite app_nil_r. reflexivity.
Qed.

(** C10. When the result of a custom query has no row, [run_custom_query]
    prints what it prints before the query and nothing else: no header, no
    separator, no row.  For any result, the separator under the header is
    on the output exactly when the result yields a row. *)
Theorem run_custom_query_prints_no_header_without_rows :
  forall (sql : string) (w : world bq) (results : iter row) (w1 : world bq),
    client_query bq c sql w = (inr results, w1) ->
    (results = Stop ->
     run_custom_query bq c sql w = (inr tt, w1, query_preamble sql ++ [Query sql]))
    /\ (In (Out separator_line) (trace_of (run_custom_query bq c sql w)) <->
        yielded results <> []).
Proof.
  intros sql w results w1 Hq. split.
  - intros ->.
    rewrite run_custom_query_run, run_custom_query_try_run, Hq. reflexivity.
  - rewrite (run_custom_query_trace sql w results w1 Hq).
    destruct (yielded results) as [|first others] eqn:Hy.
    + split; [|intro H; now contradiction H].
      intro H. exfalso.
      cbn [table_header firstn row_lines map length app] in H.
      replace (0 <? 10) with true in H by reflexivity.
      assert (Hno : forall text, Out separator_line = Out text ->
                                 separator_line = text)
        by (intros text E; injection E as E; exact E).
      destruct (ending results) as [msg|];
        cbn [query_preamble app In] in H;
        repeat (destruct H as [H|H]; [symmetry in H; try discriminate H;
                                      apply Hno in H; cbv in H; discriminate H|]);
        exact H.
    + split; [discriminate|]. intros _.
      apply in_or_app. right. right. right. left. reflexivity.
Qed.

End RunCustomQuery.

(** On the loaded emulator, a result of twelve rows is printed up to the
    tenth. *)
Lemma twelve_rows_print_ten :
  10 < length (yielded (of_list numbers))
  /\ run_custom_query loaded tt "SELECT n FROM numbers" 0 =
     (inr tt, 1,
      query_preamble "SELECT n FROM numbers"
      ++ [Query "SELECT n FROM numbers";
          Out "    n | even";
          Out "    ------------------------------------------------------------";
          Out "    1 | False"; Out "    2 | True"; Out "    3 | False";
          Out "    4 | True"; Out "    5 | False"; Out "    6 | True";
          Out "    7 | False"; Out "    8 | True"; Out "    9 | False";
          Out "    10 | True"]).
Proof.
  assert (Hlen : 10 < length (yielded (of_list numbers))) by (cbn; lia).
  split; [exact Hlen|].
  destruct (run_custom_query_truncates_after_ten_rows loaded tt
              "SELECT n FROM numbers" 0 (of_list numbers) 1 eq_refl Hlen)
    as (first & others & Hy & Hrun & _).
  injection Hy as <- _. exact Hrun.
Defined.

(** On the loaded emulator, a query without rows prints no table. *)
Lemma no_rows_print_no_table :
  run_custom_query loaded tt "SELECT 1 WHERE FALSE" 0 =
  (inr tt, 1,
   [Out (PyStr.nl ++ "🔍 Custom query:");
    Out "------------------------------------------------------------";
    Out "SQL: SELECT 1 WHERE FALSE";
    Out "";
    Query "SELECT 1 WHERE FALSE"]).
Proof.
  exact (proj1 (run_custom_query_prints_no_header_without_rows loaded tt
                  "SELECT 1 WHERE FALSE" 0 Stop 1 eq_refl) eq_refl).
Defined.

(** ** [query_firebase_model] *)

Section PrintsOnly.

Context {bq : bigquery}.

Lemma queries_app (t1 t2 : list event) :
  queries (t1 ++ t2) = queries t1 ++ queries t2.
Proof.
  induction t1 as [|ev t1 IH]; [reflexivity|].
  destruct ev; cbn; rewrite IH; reflexivity.
Qed.

Lemma prompts_app (t1 t2 : list event) :
  prompts (t1 ++ t2) = prompts t1 + prompts t2.
Proof.
  induction t1 as [|ev t1 IH]; [reflexivity|].
  destruct ev; cbn; rewrite IH; reflexivity.
Qed.

Lemma queries_of_outs (t : list event) : Forall is_Out t -> queries t = [].
Proof.
  induction 1 as [|ev t Hev _ IH]; [reflexivity|].
  destruct ev; cbn in Hev; try contradiction. exact IH.
Qed.

Lemma prompts_of_outs (t : list event) : Forall is_Out t -> prompts t = 0.
Proof.
  induction 1 as [|ev t Hev _ IH]; [reflexivity|].
  destruct ev; cbn in Hev; try contradiction. exact IH.
Qed.

Lemma prints_only_ret {A : Type} (a : A) : prints_only (@ret bq A a).
Proof. intro w. repeat split; [constructor|discriminate]. Qed.

Lemma prints_only_print (text : string) : prints_only (@print bq text).
Proof.
  intro w. repeat split; [repeat constructor|discriminate].
Qed.

Lemma prints_only_bind {A B : Type} (m : M bq A) (k : A -> M bq B) :
  prints_only m -> (forall a, prints_only (k a)) -> prints_only (bind m k).
Proof.
  intros Hm Hk w. destruct (Hm w) as (Hw & Ht & He). unfold bind.
  destruct (m w) as [[[e|a] w1] t1]; cbn in Hw, Ht; subst w1.
  - repeat split; [exact Ht|].
    intros e0 H. injection H as <-. exact (He e eq_refl).
  - destruct (Hk a w) as (Hw' & Ht' & He').
    destruct (k a w) as [[r w2] t2].
    repeat split; [exact Hw'|apply Forall_app; split; assumption|exact He'].
Qed.

Lemma prints_only_getitem (r : row) (key : string) : prints_only (getitem bq r key).
Proof.
  intro w. unfold getitem. destruct (lookup r key) as [v|].
  - apply prints_only_ret.
  - repeat split; [constructor|].
    intros e H. injection H as <-. eexists. reflexivity.
Qed.

Lemma prints_only_for_each {A : Type} (it : iter A) (body : A -> M bq unit) :
  (forall a, prints_only (body a)) -> prints_only (for_each bq it body).
Proof.
  intro Hbody. induction it as [|a rest IH|msg]; cbn [for_each].
  - apply prints_only_ret.
  - apply prints_only_bind; [apply Hbody|intros _; exact IH].
  - intro w. repeat split; [constructor|].
    intros e H. injection H as <-. exists msg. reflexivity.
Qed.

End PrintsOnly.

(** Equal traces, up to the bracketing of the appends. *)
Ltac trace_eq :=
  cbn; repeat (rewrite <- app_assoc; cbn); rewrite ?app_nil_r; reflexivity.

Section QueryFirebaseModel.

Variable bq : bigquery.
Variable c : client bq.

(** A [try] body of the diagnostics: one query, then a loop that prints. *)
Lemma query_then_print (sql : string) (body : row -> M bq unit) (w : world bq) :
  (forall r, prints_only (body r)) ->
  let x := (results <- query_result bq c sql ;; for_each bq results body) w in
  queries (trace_of x) = [sql]
  /\ (exists t, trace_of x = Query sql :: t /\ Forall is_Out t)
  /\ forall e, result_of x = inl e -> exists msg, e = Exception msg.
Proof.
  intros Hbody. unfold query_result, bind, call.
  destruct (client_query bq c sql w) as [[msg|results] w1]; cbn.
  - repeat split; [exists []; split; [reflexivity|constructor]|].
    intros e H. injection H as <-. exists msg. reflexivity.
  - destruct (prints_only_for_each results body Hbody w1) as (Hw & Ht & He).
    destruct (for_each bq results body w1) as [[r w2] t2]; cbn in *.
    rewrite (queries_of_outs t2 Ht).
    repeat split; [exists t2; split; [reflexivity|exact Ht]|exact He].
Qed.

Ltac prints_only_tac :=
  repeat first
    [ apply prints_only_bind; [|intro]
    | apply prints_only_getitem
    | apply prints_only_print
    | apply prints_only_ret ].

Lemma count_step_run (w : world bq) :
  queries (trace_of (count_step bq c w)) = [count_query]
  /\ (exists t, trace_of (count_step bq c w) = Query count_query :: t /\ Forall is_Out t)
  /\ forall e, result_of (count_step bq c w) = inl e -> exists msg, e = Exception msg.
Proof. apply query_then_print. intro r. prints_only_tac. Qed.

Lemma fields_step_run (w : world bq) :
  queries (trace_of (fields_step bq c w)) = [fields_query]
  /\ (exists t, trace_of (fields_step bq c w) = Query fields_query :: t /\ Forall is_Out t)
  /\ forall e, result_of (fields_step bq c w) = inl e -> exists msg, e = Exception msg.
Proof. apply query_then_print. intro r. prints_only_tac. Qed.

Lemma sample_step_run (w : world bq) :
  queries (trace_of (sample_step bq c w)) = [sample_query]
  /\ (exists t, trace_of (sample_step bq c w) = Query sample_query :: t /\ Forall is_Out t)
  /\ forall e, result_of (sample_step bq c w) = inl e -> exists msg, e = Exception msg.
Proof. apply query_then_print. intro r. prints_only_tac. Qed.

Lemma query_firebase_model_run (w : world bq) :
  let first := count_step bq c w in
  let second := fields_step bq c (world_of first) in
  let third := sample_step bq c (world_of second) in
  query_firebase_model bq c w =
  match result_of first with
  | inl e =>
      (inr tt, world_of first,
       diagnostics_header ++ trace_of first ++ [Out (error_line e)])
  | inr _ =>
      (inr tt, world_of third,
       diagnostics_header ++ trace_of first
       ++ [fields_title] ++ trace_of second ++ reported (result_of second)
       ++ [releases_title] ++ trace_of third ++ reported (result_of third))
  end.
Proof.
  intros first second third. subst second third first.
  destruct (count_step_run w) as (_ & _ & He1).
  unfold query_firebase_model, bind, try_except, except_Exception, report,
    print, ret.
  destruct (count_step bq c w) as [[[e|[]] w1] t1]; cbn in He1 |- *.
  - destruct (He1 e eq_refl) as [msg ->]. trace_eq.
  - destruct (fields_step_run w1) as (_ & _ & He2).
    destruct (sample_step_run (world_of (fields_step bq c w1))) as (_ & _ & He3).
    destruct (fields_step bq c w1) as [[[e2|[]] w2] t2]; cbn in He2, He3 |- *;
      [destruct (He2 e2 eq_refl) as [msg2 ->]; cbn|];
      (destruct (sample_step bq c w2) as [[[e3|[]] w3] t3]; cbn in He3 |- *;
       [destruct (He3 e3 eq_refl) as [msg3 ->]; cbn|]);
      trace_eq.
Qed.

Lemma queries_reported {A : Type} (r : exc + A) : queries (reported r) = [].
Proof. destruct r; reflexivity. Qed.

Lemma query_firebase_model_queries (w : world bq) :
  queries (trace_of (query_firebase_model bq c w)) =
  match result_of (count_step bq c w) with
  | inl _ => [count_query]
  | inr _ => [count_query; fields_query; sample_query]
  end.
Proof.
  pose proof (query_firebase_model_run w) as Hrun. cbv zeta in Hrun.
  rewrite Hrun.
  destruct (count_step_run w) as (Hq1 & _ & _).
  destruct (fields_step_run (world_of (count_step bq c w))) as (Hq2 & _ & _).
  destruct (sample_step_run
              (world_of (fields_step bq c (world_of (count_step bq c w)))))
    as (Hq3 & _ & _).
  destruct (result_of (count_step bq c w)); cbn [trace_of snd];
    rewrite !queries_app, ?queries_reported, Hq1, ?Hq2, ?Hq3; reflexivity.
Qed.

(** C1, as amended.  [query_firebase_model] never raises.  A failure of the
    row count is reported and ends the diagnostics: the other two queries
    are not sent.  When the row count succeeds, the other two queries are
    both sent, whatever happens to the second, and the failure of each is
    reported after what it printed. *)
Theorem diagnostics_stop_after_a_failed_count_only :
  forall w : world bq,
    let first := count_step bq c w in
    let second := fields_step bq c (world_of first) in
    let third := sample_step bq c (world_of second) in
    result_of (query_firebase_model bq c w) = inr tt
    /\ match result_of first with
       | inl e =>
           trace_of (query_firebase_model bq c w) =
           diagnostics_header ++ trace_of first ++ [Out (error_line e)]
           /\ queries (trace_of (query_firebase_model bq c w)) = [count_query]
       | inr _ =>
           trace_of (query_firebase_model bq c w) =
           diagnostics_header ++ trace_of first
           ++ [fields_title] ++ trace_of second ++ reported (result_of second)
           ++ [releases_title] ++ trace_of third ++ reported (result_of third)
           /\ queries (trace_of (query_firebase_model bq c w)) =
              [count_query; fields_query; sample_query]
       end.
Proof.
  intros w first second third.
  pose proof (query_firebase_model_queries w) as Hq.
  pose proof (query_firebase_model_run w) as Hrun. cbv zeta in Hrun.
  subst second third first.
  destruct (result_of (count_step bq c w)); rewrite Hrun in *;
    repeat split; exact Hq.
Qed.

(** C8, as amended.  The queries [query_firebase_model] sends are, in this
    order, the row count, the distinct field names and the sample of the
    releases: all three when the step of the row count succeeds, the row
    count alone when it fails.  Each names the same table; the second asks
    for distinct names of the nested fields and at most 20 of them; the
    third asks for at most 5 rows of five columns, each taken out of the
    nested fields by name. *)
Theorem diagnostics_send_the_fixed_queries :
  forall w : world bq,
    queries (trace_of (query_firebase_model bq c w)) =
    match result_of (count_step bq c w) with
    | inl _ => [count_query]
    | inr _ => [count_query; fields_query; sample_query]
    end
    /\ forallb (contains diagnostics_table)
         [count_query; fields_query; sample_query] = true
    /\ contains "SELECT COUNT(*) as count" count_query = true
    /\ forallb (fun part => contains part fields_query)
         ["SELECT DISTINCT field.name as field_name";
          "UNNEST(fields) AS field"; "LIMIT 20"] = true
    /\ forallb (fun part => contains part sample_query)
         ["(SELECT value FROM UNNEST(fields) WHERE name = 'MessageId') as message_id,";
          "(SELECT value FROM UNNEST(fields) WHERE name = 'ISRC') as isrc,";
          "(SELECT value FROM UNNEST(fields) WHERE name LIKE '%TitleText%' LIMIT 1) as title,";
          "(SELECT value FROM UNNEST(fields) WHERE name = 'DisplayArtistName') as artist,";
          "(SELECT value FROM UNNEST(fields) WHERE name = 'GenreText') as genre";
          "LIMIT 5"] = true.
Proof.
  intro w. split; [apply query_firebase_model_queries|].
  repeat split; vm_compute; reflexivity.
Qed.

End QueryFirebaseModel.

(** C1, as stated, fails on a dataset without the table: the row count
    fails, and the two queries after it are never sent. *)
Lemma failed_count_skips_the_other_queries :
  result_of (count_step empty_dataset tt 0) = inl (Exception no_table)
  /\ ~ In (Query fields_query) (trace_of (query_firebase_model empty_dataset tt 0))
  /\ ~ In (Query sample_query) (trace_of (query_firebase_model empty_dataset tt 0)).
Proof.
  split; [reflexivity|].
  split; intro H; cbn in H;
    repeat (destruct H as [H|H]; [discriminate H|]); exact H.
Qed.

(** C8, as stated, fails on the same dataset: a whole run of the script
    sends one query, not three. *)
Lemma run_on_empty_dataset_sends_one_query :
  queries (trace_of (main empty_dataset [] 0)) = [count_query]
  /\ length (queries (trace_of (main empty_dataset [] 0))) <> 3.
Proof.
  split; [reflexivity|]. cbn. discriminate.
Qed.


(** ** White space *)

Section WhiteSpace.

Import PyStr.

Lemma lstrip_skip (s : string) :
  lstrip s = match skip s with
             | Some r => lstrip r
             | None => s
             end.
Proof.
  destruct s as [|b1 [|b2 [|b3 s3]]]; cbn [lstrip skip];
    try reflexivity;
    destruct (space1 b1); try reflexivity;
    destruct (space2 b1 b2); try reflexivity;
    destruct (space3 b1 b2 b3); reflexivity.
Qed.

Lemma skip_shorter (s r : string) :
  skip s = Some r -> String.length r < String.length s.
Proof.
  destruct s as [|b1 [|b2 [|b3 s3]]]; cbn [skip String.length];
    try discriminate;
    destruct (space1 b1); try (intro H; injection H as <-; cbn; lia);
    try discriminate;
    destruct (space2 b1 b2); try (intro H; injection H as <-; cbn; lia);
    try discriminate;
    destruct (space3 b1 b2 b3); try (intro H; injection H as <-; cbn; lia);
    discriminate.
Qed.

Lemma skip_white (w s : string) :
  In w white_space -> skip (w ++ s) = Some s.
Proof.
  intro H. cbn in H.
  repeat (destruct H as [<-|H]; [reflexivity|]). contradiction H.
Qed.

Lemma lstrip_white (s : string) : all_white s -> lstrip s = ""%string.
Proof.
  induction 1 as [|w s Hw _ IH]; [reflexivity|].
  rewrite lstrip_skip, (skip_white w s Hw). exact IH.
Qed.

Lemma code_of_byte (b : ascii) (n : nat) :
  nat_of_ascii b = n -> b = ascii_of_nat n.
Proof. intros <-. symmetry. apply ascii_nat_embedding. Qed.

Lemma found1 (b1 : ascii) (r : string) :
  In (String b1 "") white_space ->
  exists w, In w white_space /\ String b1 r = (w ++ r)%string.
Proof. intro H. eexists. split; [exact H|reflexivity]. Qed.

Lemma found2 (b1 b2 : ascii) (r : string) :
  In (String b1 (String b2 "")) white_space ->
  exists w, In w white_space /\ String b1 (String b2 r) = (w ++ r)%string.
Proof. intro H. eexists. split; [exact H|reflexivity]. Qed.

Lemma found3 (b1 b2 b3 : ascii) (r : string) :
  In (String b1 (String b2 (String b3 ""))) white_space ->
  exists w,
    In w white_space /\ String b1 (String b2 (String b3 r)) = (w ++ r)%string.
Proof. intro H. eexists. split; [exact H|reflexivity]. Qed.

Ltac tests :=
  repeat match goal with
         | H : (_ || _)%bool = true |- _ => apply orb_prop in H; destruct H as [H|H]
         | H : (_ && _)%bool = true |- _ =>
             let H' := fresh H in apply andb_prop in H; destruct H as [H H']
         | H : (_ =? _) = true |- _ => apply Nat.eqb_eq in H
         | H : (_ <=? _) = true |- _ => apply Nat.leb_le in H
         end.

Ltac in_white := cbn; repeat (first [left; reflexivity | right]).

Lemma space1_white (b1 : ascii) :
  space1 b1 = true -> In (String b1 "") white_space.
Proof.
  unfold space1. intro H. cbv zeta in H. tests.
  - assert (Hn : nat_of_ascii b1 = 9 \/ nat_of_ascii b1 = 10
                 \/ nat_of_ascii b1 = 11 \/ nat_of_ascii b1 = 12
                 \/ nat_of_ascii b1 = 13) by lia.
    repeat (destruct Hn as [Hn|Hn]);
      apply code_of_byte in Hn; subst b1; in_white.
  - assert (Hn : nat_of_ascii b1 = 28 \/ nat_of_ascii b1 = 29
                 \/ nat_of_ascii b1 = 30 \/ nat_of_ascii b1 = 31
                 \/ nat_of_ascii b1 = 32) by lia.
    repeat (destruct Hn as [Hn|Hn]);
      apply code_of_byte in Hn; subst b1; in_white.
Qed.

Lemma space2_white (b1 b2 : ascii) :
  space2 b1 b2 = true -> In (String b1 (String b2 "")) white_space.
Proof.
  unfold space2. intro H. cbv zeta in H. tests;
    repeat match goal with
           | Hn : nat_of_ascii _ = _ |- _ => apply code_of_byte in Hn
           end; subst; in_white.
Qed.

Lemma space3_white (b1 b2 b3 : ascii) :
  space3 b1 b2 b3 = true ->
  In (String b1 (String b2 (String b3 ""))) white_space.
Proof.
  unfold space3. intro H. cbv zeta in H. tests;
    try (assert (Hn : nat_of_ascii b3 = 128 \/ nat_of_ascii b3 = 129
                      \/ nat_of_ascii b3 = 130 \/ nat_of_ascii b3 = 131
                      \/ nat_of_ascii b3 = 132 \/ nat_of_ascii b3 = 133
                      \/ nat_of_ascii b3 = 134 \/ nat_of_ascii b3 = 135
                      \/ nat_of_ascii b3 = 136 \/ nat_of_ascii b3 = 137
                      \/ nat_of_ascii b3 = 138) by lia;
         repeat (destruct Hn as [Hn|Hn]));
    repeat match goal with
           | Hn : nat_of_ascii _ = _ |- _ => apply code_of_byte in Hn
           end; subst; in_white.
Qed.

(** [skip] drops exactly a character of white space. *)
Lemma skip_spec (s r : string) :
  skip s = Some r <-> exists w, In w white_space /\ s = (w ++ r)%string.
Proof.
  split.
  - destruct s as [|b1 s1]; [discriminate|]. cbn [skip].
    destruct (space1 b1) eqn:H1.
    { intro H. injection H as <-. apply found1, space1_white, H1. }
    destruct s1 as [|b2 s2]; [discriminate|].
    destruct (space2 b1 b2) eqn:H2.
    { intro H. injection H as <-. apply found2, space2_white, H2. }
    destruct s2 as [|b3 s3]; [discriminate|].
    destruct (space3 b1 b2 b3) eqn:H3; [|discriminate].
    intro H. injection H as <-. apply found3, space3_white, H3.
  - intros (w & Hw & ->). apply skip_white, Hw.
Qed.

(** Induction along [skip]: a property of the strings that start with no
    white space, carried from what follows a character of white space to
    the string itself, holds of all strings. *)
Lemma skip_ind (P : string -> Prop) :
  (forall s, skip s = None -> P s) ->
  (forall s r, skip s = Some r -> P r -> P s) ->
  forall s, P s.
Proof.
  intros Hnone Hsome s.
  assert (H : forall n s, String.length s <= n -> P s).
  { induction n as [|n IH]; intros s0 Hn.
    - destruct s0; [apply Hnone; reflexivity|cbn in Hn; lia].
    - destruct (skip s0) as [r|] eqn:Hs; [|apply Hnone; exact Hs].
      apply (Hsome s0 r Hs). apply IH.
      pose proof (skip_shorter s0 r Hs). lia. }
  exact (H (String.length s) s (le_n _)).
Qed.

Lemma lstrip_all_white (s : string) : lstrip s = ""%string -> all_white s.
Proof.
  induction s as [s Hs|s r Hs IH] using skip_ind; rewrite lstrip_skip, Hs.
  - intros ->. constructor.
  - intro H. apply skip_spec in Hs. destruct Hs as (w & Hw & ->).
    constructor; [exact Hw|exact (IH H)].
Qed.

Lemma skip_lstrip (s : string) : skip (lstrip s) = None.
Proof.
  induction s as [s Hs|s r Hs IH] using skip_ind; rewrite lstrip_skip, Hs;
    assumption.
Qed.

Lemma lstrip_fixed (s : string) : skip s = None -> lstrip s = s.
Proof. intro H. rewrite lstrip_skip, H. reflexivity. Qed.

Lemma skip_app (x r z : string) :
  skip x = Some r -> skip (x ++ z) = Some (r ++ z)%string.
Proof.
  intro H. apply skip_spec in H. destruct H as (w & Hw & ->).
  apply skip_spec. exists w. split; [exact Hw|].
  clear Hw. induction w as [|b w IH]; [reflexivity|].
  cbn. rewrite IH. reflexivity.
Qed.

Lemma lstrip_app_blank (x z : string) :
  lstrip x = ""%string -> lstrip (x ++ z) = lstrip z.
Proof.
  induction x as [x Hx|x r Hx IH] using skip_ind; rewrite (lstrip_skip x), Hx.
  - intros ->. reflexivity.
  - intro H. rewrite lstrip_skip, (skip_app x r z Hx). exact (IH H).
Qed.

Lemma blank_lstrip (s : string) : blank s = true <-> lstrip s = ""%string.
Proof.
  unfold blank. destruct (lstrip s); split; congruence.
Qed.

(** What [rstrip] drops is white space. *)
Lemma rstrip_split (s : string) :
  exists z, s = (rstrip s ++ z)%string /\ blank z = true.
Proof.
  induction s as [|b s IH]; [exists ""%string; split; reflexivity|].
  cbn [rstrip]. destruct (blank (String b s)) eqn:Hb.
  - exists (String b s). split; [reflexivity|exact Hb].
  - destruct IH as (z & Hz & Hblank). exists z.
    split; [cbn; rewrite <- Hz; reflexivity|exact Hblank].
Qed.

Lemma rstrip_rstrip (s : string) : rstrip (rstrip s) = rstrip s.
Proof.
  induction s as [|b s IH]; [reflexivity|].
  cbn [rstrip]. destruct (blank (String b s)) eqn:Hb; [reflexivity|].
  cbn [rstrip]. rewrite IH.
  destruct (blank (String b (rstrip s))) eqn:Hb'; [|reflexivity].
  exfalso. destruct (rstrip_split s) as (z & Hz & Hblank).
  apply blank_lstrip in Hb', Hblank.
  assert (H : lstrip (String b s) = ""%string).
  { rewrite Hz at 1.
    change (String b (rstrip s ++ z)) with (String b (rstrip s) ++ z)%string.
    rewrite (lstrip_app_blank _ z Hb'). exact Hblank. }
  apply blank_lstrip in H. congruence.
Qed.

(** The start of a string that starts with no white space starts with
    none. *)
Lemma skip_start (p z : string) : skip (p ++ z) = None -> skip p = None.
Proof.
  destruct p as [|b1 [|b2 [|b3 p]]]; try reflexivity; cbn [append skip].
  - destruct (space1 b1); [discriminate|reflexivity].
  - destruct (space1 b1); [discriminate|].
    destruct (space2 b1 b2); [discriminate|reflexivity].
  - destruct (space1 b1); [discriminate|].
    destruct (space2 b1 b2); [discriminate|].
    destruct (space3 b1 b2 b3); [discriminate|reflexivity].
Qed.

(** A stripped string starts with no white space, and stripping it again
    changes nothing. *)
Lemma skip_strip (s : string) : skip (strip s) = None.
Proof.
  unfold strip. destruct (rstrip_split (lstrip s)) as (z & Hz & _).
  apply (skip_start _ z). rewrite <- Hz. apply skip_lstrip.
Qed.

Lemma strip_strip (s : string) : strip (strip s) = strip s.
Proof.
  pose proof (skip_strip s) as H. unfold strip in *.
  rewrite (lstrip_fixed _ H). apply rstrip_rstrip.
Qed.

(** The strings that strip to nothing are the strings of white space. *)
Lemma strip_all_white (s : string) : strip s = ""%string <-> all_white s.
Proof.
  unfold strip. split.
  - intro H. apply lstrip_all_white.
    destruct (lstrip s) as [|b t] eqn:Hl; [reflexivity|].
    cbn [rstrip] in H. destruct (blank (String b t)) eqn:Hb; [|discriminate H].
    apply blank_lstrip in Hb. rewrite <- Hl in Hb.
    rewrite (lstrip_fixed _ (skip_lstrip s)) in Hb. congruence.
  - intro H. rewrite (lstrip_white s H). reflexivity.
Qed.

End WhiteSpace.

(** ** The interactive loop *)

Section InteractiveLoop.

Variable bq : bigquery.
Variable c : client bq.

Lemma run_custom_query_returns (sql : string) (w : world bq) :
  result_of (run_custom_query bq c sql w) = inr tt.
Proof.
  rewrite run_custom_query_run.
  destruct (run_custom_query_try bq c sql w) as [[[e|u] w1] t1]; reflexivity.
Qed.

Lemma prompts_row_lines (rows : list row) : prompts (row_lines rows) = 0.
Proof. induction rows as [|r rows IH]; [reflexivity|exact IH]. Qed.

Lemma prompts_table_header (rows : list row) : prompts (table_header rows) = 0.
Proof. destruct rows; reflexivity. Qed.

(** [run_custom_query] sends the text it is given, and never prompts. *)
Lemma run_custom_query_sends (sql : string) (w : world bq) :
  (exists t, trace_of (run_custom_query bq c sql w) =
             query_preamble sql ++ Query sql :: t)
  /\ prompts (trace_of (run_custom_query bq c sql w)) = 0.
Proof.
  rewrite run_custom_query_run, run_custom_query_try_run.
  destruct (client_query bq c sql w) as [[msg|results] w1].
  - split; [eexists; reflexivity|reflexivity].
  - destruct (length (yielded results) <? 10);
      [destruct (ending results) as [msg|]|];
      (split;
       [eexists; cbn [trace_of snd app]; reflexivity
       |cbn [trace_of snd];
        repeat (rewrite prompts_app; cbn [prompts query_preamble app]);
        rewrite ?prompts_table_header, ?prompts_row_lines; reflexivity]).
Qed.

(** One round of the loop, by what [input] finds. *)
Lemma loop_body_run (ev : input_event) (w : world bq) :
  loop_body bq c ev w =
  match ev with
  | Eof => (inr Break, w, [Input prompt])
  | Interrupt =>
      (inr Break, w,
       [Input prompt; Out (PyStr.nl ++ PyStr.nl ++ "Exiting...")])
  | Line text =>
      if PyStr.mem (PyStr.lower (PyStr.strip text)) quit_tokens
      then (inr Break, w, [Input prompt])
      else if PyStr.is_empty (PyStr.strip text)
      then (inr Continue, w, [Input prompt])
      else (inr Continue,
            world_of (run_custom_query bq c (PyStr.strip text) w),
            Input prompt :: trace_of (run_custom_query bq c (PyStr.strip text) w))
  | Unreadable msg => (inl (Exception msg), w, [Input prompt])
  end.
Proof.
  destruct ev as [text| | |msg]; [|reflexivity|reflexivity|reflexivity].
  pose proof (run_custom_query_returns (PyStr.strip text) w) as Hret.
  unfold loop_body, loop_try, try_except, bind, input, ret.
  destruct (PyStr.mem (PyStr.lower (PyStr.strip text)) quit_tokens);
    [reflexivity|].
  destruct (PyStr.is_empty (PyStr.strip text)); [reflexivity|].
  destruct (run_custom_query bq c (PyStr.strip text) w) as [[r w1] t1].
  cbn in Hret. subst r. cbn. rewrite app_nil_r. reflexivity.
Qed.

Lemma loop_body_prompts_once (ev : input_event) (w : world bq) :
  prompts (trace_of (loop_body bq c ev w)) = 1.
Proof.
  rewrite loop_body_run.
  destruct ev as [text| | |msg]; [|reflexivity|reflexivity|reflexivity].
  destruct (PyStr.mem _ quit_tokens); [reflexivity|].
  destruct (PyStr.is_empty _); [reflexivity|].
  cbn [trace_of snd prompts].
  destruct (run_custom_query_sends (PyStr.strip text) w) as [_ ->]. reflexivity.
Qed.

Lemma loop_body_result (ev : input_event) (w : world bq) :
  result_of (loop_body bq c ev w) =
  match ev with
  | Unreadable msg => inl (Exception msg)
  | Line _ | Eof | Interrupt => inr (if ends_loop ev then Break else Continue)
  end.
Proof.
  rewrite loop_body_run.
  destruct ev as [text| | |msg]; [|reflexivity|reflexivity|reflexivity].
  cbn [ends_loop].
  destruct (PyStr.mem _ quit_tokens); [reflexivity|].
  destruct (PyStr.is_empty _); reflexivity.
Qed.

Lemma interactive_loop_nil (w : world bq) :
  interactive_loop bq c [] w = (inr [], w, [Input prompt]).
Proof. reflexivity. Qed.

(** The loop, by its first input: it goes on with the inputs after it, or
    stops there. *)
Lemma interactive_loop_cons (ev : input_event) (rest : list input_event)
  (w : world bq) :
  interactive_loop bq c (ev :: rest) w =
  if goes_on ev
  then (result_of (interactive_loop bq c rest (world_of (loop_body bq c ev w))),
        world_of (interactive_loop bq c rest (world_of (loop_body bq c ev w))),
        trace_of (loop_body bq c ev w)
        ++ trace_of (interactive_loop bq c rest (world_of (loop_body bq c ev w))))
  else (stopped ev rest, world_of (loop_body bq c ev w),
        trace_of (loop_body bq c ev w)).
Proof.
  pose proof (loop_body_result ev w) as Hres.
  cbn [interactive_loop]. unfold bind at 1. unfold goes_on.
  destruct (loop_body bq c ev w) as [[r w1] t1]. cbn in Hres. subst r.
  destruct ev as [text| | |msg]; try reflexivity;
    [|cbn; rewrite app_nil_r; reflexivity|cbn; rewrite app_nil_r; reflexivity].
  destruct (ends_loop (Line text)); cbn.
  - rewrite app_nil_r. reflexivity.
  - destruct (interactive_loop bq c rest w1) as [[r w2] t2]. reflexivity.
Qed.


(** The loop comes back unless it comes to an input that cannot be read;
    then it ends with the exception of [input]. *)
Lemma interactive_loop_result (stdin : list input_event) :
  forall w : world bq,
    if reaches_unreadable stdin
    then exists msg,
        result_of (interactive_loop bq c stdin w) = inl (Exception msg)
    else exists left, result_of (interactive_loop bq c stdin w) = inr left.
Proof.
  induction stdin as [|ev rest IH]; intro w.
  - exists []. reflexivity.
  - rewrite interactive_loop_cons. cbn [reaches_unreadable].
    destruct ev as [text| | |msg]; cbn [unreadable orb];
      [|exists rest; reflexivity|exists rest; reflexivity
       |exists msg; reflexivity].
    destruct (goes_on (Line text)); cbn [andb].
    + apply IH.
    + exists rest. reflexivity.
Qed.

Lemma loop_body_starts_with_prompt (ev : input_event) (w : world bq) :
  exists t, trace_of (loop_body bq c ev w) = Input prompt :: t.
Proof.
  rewrite loop_body_run. destruct ev as [text| | |msg];
    [|eexists; reflexivity|eexists; reflexivity|eexists; reflexivity].
  destruct (PyStr.mem _ quit_tokens); [eexists; reflexivity|].
  destruct (PyStr.is_empty _); eexists; reflexivity.
Qed.

Lemma interactive_loop_starts_with_prompt (stdin : list input_event)
  (w : world bq) :
  exists t, trace_of (interactive_loop bq c stdin w) = Input prompt :: t.
Proof.
  destruct stdin as [|ev rest].
  - exists []. reflexivity.
  - rewrite interactive_loop_cons.
    destruct (loop_body_starts_with_prompt ev w) as [t Ht].
    destruct (goes_on ev); cbn [trace_of snd]; rewrite Ht;
      eexists; reflexivity.
Qed.



Lemma is_empty_false (s : string) : s <> "" -> PyStr.is_empty s = false.
Proof. destruct s; [intro H; now contradiction H|reflexivity]. Qed.

(** C6, as amended.  The lines that are empty once stripped are the lines
    of white space, that of Unicode included.  Such a line sends no query
    and prints nothing: the round ends where it began and the loop prompts
    again.  Any other line that is not a quit token is sent to the emulator
    as it is, well formed or not. *)
Theorem blank_line_goes_back_to_the_prompt :
  forall (text : string) (w : world bq),
    (all_white text <-> PyStr.strip text = "")
    /\ (PyStr.strip text = "" ->
        loop_body bq c (Line text) w = (inr Continue, w, [Input prompt])
        /\ forall rest : list input_event,
            interactive_loop bq c (Line text :: rest) w =
            (result_of (interactive_loop bq c rest w),
             world_of (interactive_loop bq c rest w),
             Input prompt :: trace_of (interactive_loop bq c rest w)))
    /\ (PyStr.strip text <> "" ->
        ends_loop (Line text) = false ->
        In (Query (PyStr.strip text)) (trace_of (loop_body bq c (Line text) w))).
Proof.
  intros text w. split; [symmetry; apply strip_all_white|]. split.
  - intro Hblank.
    assert (Hbody : loop_body bq c (Line text) w = (inr Continue, w, [Input prompt]))
      by (rewrite loop_body_run, Hblank; reflexivity).
    split; [exact Hbody|]. intro rest.
    rewrite interactive_loop_cons. unfold goes_on. cbn [ends_loop unreadable].
    rewrite Hblank, Hbody. reflexivity.
  - intros Hfull Hgo. rewrite loop_body_run. cbn [ends_loop] in Hgo.
    rewrite Hgo, (is_empty_false _ Hfull). cbn [trace_of snd].
    destruct (run_custom_query_sends (PyStr.strip text) w) as [[t ->] _].
    right. apply in_or_app. right. left. reflexivity.
Qed.

(** C7.  When a custom query raises, the loop prints what the query printed
    so far and then the error marker with the message, comes back from
    [run_custom_query] without an exception, and goes on with the next
    round, which starts with the prompt; the loop itself returns, unless
    it comes to an input that cannot be read. *)
Theorem failing_query_goes_back_to_the_prompt :
  forall (text : string) (rest : list input_event) (w : world bq) (e : exc),
    ends_loop (Line text) = false ->
    PyStr.strip text <> "" ->
    result_of (run_custom_query_try bq c (PyStr.strip text) w) = inl e ->
    let run := run_custom_query bq c (PyStr.strip text) w in
    let next := interactive_loop bq c rest (world_of run) in
    trace_of run =
    query_preamble (PyStr.strip text)
    ++ trace_of (run_custom_query_try bq c (PyStr.strip text) w)
    ++ [Out (error_line e)]
    /\ result_of run = inr tt
    /\ interactive_loop bq c (Line text :: rest) w =
       (result_of next, world_of next, Input prompt :: trace_of run ++ trace_of next)
    /\ (exists t, trace_of next = Input prompt :: t)
    /\ (if reaches_unreadable rest
        then exists msg, result_of next = inl (Exception msg)
        else exists left, result_of next = inr left).
Proof.
  intros text rest w e Hgo Hfull Hraise run next. subst next run.
  split; [|split; [|split; [|split]]].
  - rewrite run_custom_query_run.
    destruct (run_custom_query_try bq c (PyStr.strip text) w) as [[r w1] t1].
    cbn in Hraise. subst r. reflexivity.
  - apply run_custom_query_returns.
  - rewrite interactive_loop_cons, loop_body_run. unfold goes_on.
    rewrite Hgo. cbn [ends_loop] in Hgo.
    rewrite Hgo, (is_empty_false _ Hfull). reflexivity.
  - apply interactive_loop_starts_with_prompt.
  - apply interactive_loop_result.
Qed.

End InteractiveLoop.

(** On the loaded emulator a line of spaces, among them a non-breaking and
    an ideographic one, only brings the prompt back. *)
Lemma blank_line_on_loaded_emulator :
  loop_body loaded tt (Line (" " ++ nbsp ++ wide_space)) 0 =
  (inr Continue, 0, [Input prompt])
  /\ interactive_loop loaded tt
       [Line (" " ++ nbsp ++ wide_space); Line "quit"; Line "SELECT 1"] 0 =
     (inr [Line "SELECT 1"], 0, [Input prompt; Input prompt]).
Proof.
  destruct (blank_line_goes_back_to_the_prompt loaded tt
              (" " ++ nbsp ++ wide_space) 0)
    as (_ & H & _).
  destruct (H eq_refl) as [Hbody Hloop].
  split; [exact Hbody|]. exact (Hloop [Line "quit"; Line "SELECT 1"]).
Defined.

(** C6, as stated, fails on a malformed line: the emulator rejects
    [SELEC 1], and the loop has sent it all the same. *)
Lemma malformed_line_is_sent_to_the_emulator :
  fst (client_query loaded tt "SELEC 1" 0) =
  inl "Syntax error: Unexpected identifier in SELEC 1"
  /\ In (Query "SELEC 1") (trace_of (loop_body loaded tt (Line "SELEC 1") 0)).
Proof.
  split; [reflexivity|]. vm_compute. do 5 right. left. reflexivity.
Qed.

(** On the loaded emulator the rejected query is reported and the loop
    prompts again. *)
Lemma rejected_query_on_loaded_emulator :
  interactive_loop loaded tt [Line "SELEC 1"; Line "quit"] 0 =
  (inr [], 1,
   [Input prompt;
    Out (PyStr.nl ++ "🔍 Custom query:");
    Out "------------------------------------------------------------";
    Out "SQL: SELEC 1";
    Out "";
    Query "SELEC 1";
    Out "   ❌ Error: Syntax error: Unexpected identifier in SELEC 1";
    Input prompt]).
Proof.
  destruct (failing_query_goes_back_to_the_prompt loaded tt "SELEC 1"
              [Line "quit"] 0
              (Exception "Syntax error: Unexpected identifier in SELEC 1")
              eq_refl ltac:(discriminate) eq_refl)
    as (_ & _ & H & _).
  exact H.
Defined.

(** ** [main] *)

(** Reads the components of the runs in the goal and the hypotheses. *)
Ltac observe :=
  unfold result_of, world_of, trace_of in *; cbn [fst snd] in *.

Section Main.

Variable bq : bigquery.

#[local] Arguments list_tables : simpl never.
#[local] Arguments query_firebase_model : simpl never.
#[local] Arguments interactive_loop : simpl never.

Lemma In_queries (sql : string) (t : list event) :
  In (Query sql) t <-> In sql (queries t).
Proof.
  induction t as [|ev t IH]; [reflexivity|].
  destruct ev; cbn [queries In]; rewrite <- IH;
    try (split; [intros [H|H]; [discriminate H|exact H]|intro H; right; exact H]).
  split; (intros [H|H]; [left; congruence|right; exact H]).
Qed.

Lemma show_table_sends_no_query (c : client bq) (tables : iter table_item) :
  forall w,
    queries (trace_of (for_each bq tables (show_table bq c) w)) = []
    /\ prompts (trace_of (for_each bq tables (show_table bq c) w)) = 0.
Proof.
  induction tables as [|t rest IH|msg]; intro w; cbn [for_each];
    [split; reflexivity| |split; reflexivity].
  unfold bind. rewrite show_table_run.
  destruct (client_get_table bq c (table_name t) w) as [[msg|table_ref] w1];
    [split; reflexivity|].
  specialize (IH w1).
  destruct (for_each bq rest (show_table bq c) w1) as [[r w2] t2].
  exact IH.
Qed.

(** [list_tables] starts by asking for the tables; it sends no query and
    does not prompt. *)
Lemma list_tables_trace (c : client bq) (w : world bq) :
  (exists t, trace_of (list_tables bq c w) =
             listing_header ++ ListTables dataset_id :: t)
  /\ queries (trace_of (list_tables bq c w)) = []
  /\ prompts (trace_of (list_tables bq c w)) = 0.
Proof.
  rewrite list_tables_run, list_tables_try_run.
  destruct (client_list_tables bq c dataset_id w) as [[msg|tables] w1].
  - split; [eexists; reflexivity|split; reflexivity].
  - destruct (show_table_sends_no_query c tables w1) as [Hq Hp].
    destruct (for_each bq tables (show_table bq c) w1) as [[[e|u] w2] t2];
      cbn in Hq, Hp |- *;
      [destruct (is_Exception e)|];
      (split; [eexists; reflexivity|]);
      cbn; rewrite ?queries_app, ?prompts_app, Hq, Hp; split; reflexivity.
Qed.

Lemma prompts_reported {A : Type} (r : exc + A) : prompts (reported r) = 0.
Proof. destruct r; reflexivity. Qed.

Lemma prompts_after_query (sql : string) (t : list event) :
  Forall is_Out t -> prompts (Query sql :: t) = 0.
Proof. intro H. exact (prompts_of_outs t H). Qed.

(** [query_firebase_model] starts by sending the row count, and does not
    prompt. *)
Lemma query_firebase_model_trace (c : client bq) (w : world bq) :
  (exists t, trace_of (query_firebase_model bq c w) =
             diagnostics_header ++ Query count_query :: t)
  /\ prompts (trace_of (query_firebase_model bq c w)) = 0.
Proof.
  pose proof (query_firebase_model_run bq c w) as Hrun. cbv zeta in Hrun.
  rewrite Hrun.
  destruct (count_step_run bq c w) as (_ & (t1 & Ht1 & Ho1) & _).
  destruct (fields_step_run bq c (world_of (count_step bq c w)))
    as (_ & (t2 & Ht2 & Ho2) & _).
  destruct (sample_step_run bq c
              (world_of (fields_step bq c (world_of (count_step bq c w)))))
    as (_ & (t3 & Ht3 & Ho3) & _).
  destruct (result_of (count_step bq c w)); cbn [trace_of snd];
    rewrite Ht1, ?Ht2, ?Ht3;
    (split; [eexists; cbn [app]; reflexivity|]);
    repeat (rewrite prompts_app; cbn [prompts diagnostics_header app]);
    rewrite ?prompts_reported, ?prompts_after_query by assumption;
    cbn; rewrite ?(prompts_of_outs _ Ho1), ?(prompts_of_outs _ Ho2),
           ?(prompts_of_outs _ Ho3); reflexivity.
Qed.

Lemma query_firebase_model_returns (c : client bq) (w : world bq) :
  result_of (query_firebase_model bq c w) = inr tt.
Proof.
  pose proof (query_firebase_model_run bq c w) as Hrun. cbv zeta in Hrun.
  rewrite Hrun. destruct (result_of (count_step bq c w)); reflexivity.
Qed.

(** A whole run, by what the emulator answers at the start. *)
Lemma main_run (stdin : list input_event) (w : world bq) :
  main bq stdin w =
  match new_client bq api_endpoint project w with
  | (inl msg, w1) =>
      (inl (SystemExit 1), w1, banner ++ connection_failure (Exception msg))
  | (inr c, w1) =>
      let listing := list_tables bq c w1 in
      let diagnostics := query_firebase_model bq c (world_of listing) in
      let loop := interactive_loop bq c stdin (world_of diagnostics) in
      if listing_completes bq c w1
      then (result_of loop, world_of loop,
            banner ++ connected ++ trace_of listing ++ trace_of diagnostics
            ++ loop_banner ++ trace_of loop)
      else (inl (SystemExit 1), world_of listing,
            banner ++ connected ++ trace_of listing)
  end.
Proof.
  cbv zeta.
  unfold main, connect, create_client, sys_exit, raise, bind, try_except,
    except_Exception, call, print, ret.
  destruct (new_client bq api_endpoint project w) as [[msg|c] w1]; cbn;
    [reflexivity|].
  pose proof (list_tables_result bq c w1) as Hlist.
  destruct (list_tables bq c w1) as [[r2 w2] t2]. observe. subst r2.
  destruct (listing_completes bq c w1); cbn; [|trace_eq].
  pose proof (query_firebase_model_returns c w2) as Hdiag.
  destruct (query_firebase_model bq c w2) as [[r3 w3] t3]. observe. subst r3.
  destruct (interactive_loop bq c stdin w3) as [[r4 w4] t4].
  trace_eq.
Qed.


(** C2, as amended.  When the client is built and the listing does not
    complete, [list_tables] itself returns [False] to [main] without
    raising, and [main] then ends the process: it calls [sys.exit(1)] right
    after the output of [list_tables], whatever standard input holds. *)
Theorem failed_listing_is_returned_and_ends_the_run :
  forall (stdin : list input_event) (w : world bq) (c : client bq) (w1 : world bq),
    new_client bq api_endpoint project w = (inr c, w1) ->
    listing_completes bq c w1 = false ->
    result_of (list_tables bq c w1) = inr false
    /\ main bq stdin w =
       (inl (SystemExit 1), world_of (list_tables bq c w1),
        banner ++ connected ++ trace_of (list_tables bq c w1))
    /\ exit_status (result_of (main bq stdin w)) = 1%Z.
Proof.
  intros stdin w c w1 Hnew Hlist.
  pose proof (main_run stdin w) as Hrun. cbv zeta in Hrun.
  rewrite Hnew, Hlist in Hrun.
  split; [rewrite list_tables_result, Hlist; reflexivity|].
  split; [exact Hrun|]. rewrite Hrun. reflexivity.
Qed.

(** C3, as amended.  When the client is built, the run asks for the tables
    first, and the listing itself sends no query.  The diagnostics, which
    start with the row count, follow the listing exactly when it completed;
    otherwise the run ends with the output of the listing, by [sys.exit(1)]:
    the process exits with status 1. *)
Theorem diagnostics_follow_a_completed_listing_only :
  forall (stdin : list input_event) (w : world bq) (c : client bq) (w1 : world bq),
    new_client bq api_endpoint project w = (inr c, w1) ->
    let listing := list_tables bq c w1 in
    let diagnostics := query_firebase_model bq c (world_of listing) in
    (exists t, trace_of listing = listing_header ++ ListTables dataset_id :: t)
    /\ queries (trace_of listing) = []
    /\ (exists t, trace_of diagnostics = diagnostics_header ++ Query count_query :: t)
    /\ (if listing_completes bq c w1
        then exists rest,
            trace_of (main bq stdin w) =
            banner ++ connected ++ trace_of listing ++ trace_of diagnostics ++ rest
        else trace_of (main bq stdin w) = banner ++ connected ++ trace_of listing
             /\ result_of (main bq stdin w) = inl (SystemExit 1)
             /\ exit_status (result_of (main bq stdin w)) = 1%Z)
    /\ (In (Query count_query) (trace_of (main bq stdin w)) <->
        listing_completes bq c w1 = true).
Proof.
  intros stdin w c w1 Hnew listing diagnostics.
  pose proof (main_run stdin w) as Hrun. cbv zeta in Hrun. rewrite Hnew in Hrun.
  destruct (list_tables_trace c w1) as (Hstart & Hq & _).
  destruct (query_firebase_model_trace c (world_of listing)) as ((td & Hd) & _).
  fold listing in Hrun, Hstart, Hq. fold diagnostics in Hrun, Hd.
  split; [exact Hstart|]. split; [exact Hq|]. split; [exists td; exact Hd|].
  destruct (listing_completes bq c w1); rewrite Hrun;
    cbn [trace_of result_of fst snd].
  - split; [eexists; reflexivity|]. split; [reflexivity|]. intros _.
    rewrite Hd. apply in_or_app. right. apply in_or_app. right.
    apply in_or_app. right. apply in_or_app. left.
    apply in_or_app. right. left. reflexivity.
  - split; [repeat split|]. split; [|discriminate].
    intro H. apply In_queries in H.
    rewrite !queries_app, Hq in H. contradiction H.
Qed.


End Main.

(** On the emulator without the dataset, [list_tables] returns [False] and
    the run ends there with status 1. *)
Lemma missing_dataset_run :
  result_of (list_tables unloaded tt 1) = inr false
  /\ main unloaded [Line "SELECT 1"; Line "quit"] 0 =
     (inl (SystemExit 1), 2,
      banner ++ connected
      ++ listing_header
      ++ [ListTables dataset_id;
          Out "   ❌ Error: 404 Not found: Dataset test-project:music_metadata";
          Out "   Make sure the emulator is running and tests have been executed"])
  /\ exit_status (result_of (main unloaded [Line "SELECT 1"; Line "quit"] 0)) = 1%Z.
Proof.
  exact (failed_listing_is_returned_and_ends_the_run unloaded
           [Line "SELECT 1"; Line "quit"] 0 tt 1 eq_refl eq_refl).
Defined.

(** C2, as stated, fails on the emulator without the dataset: [list_tables]
    returns [False], and that ends the process, with status 1 and before any
    prompt, though standard input holds a query. *)
Lemma missing_dataset_ends_the_process :
  fst (client_list_tables unloaded tt dataset_id 1) = inl not_found
  /\ result_of (list_tables unloaded tt 1) = inr false
  /\ result_of (main unloaded [Line "SELECT 1"; Line "quit"] 0) = inl (SystemExit 1)
  /\ exit_status (result_of (main unloaded [Line "SELECT 1"; Line "quit"] 0)) = 1%Z
  /\ prompts (trace_of (main unloaded [Line "SELECT 1"; Line "quit"] 0)) = 0.
Proof. repeat split. Qed.

(** On the emulator that lost a table, the run stops after the listing,
    with status 1. *)
Lemma lost_table_run :
  trace_of (main half_loaded [] 0) =
  banner ++ connected ++ trace_of (list_tables half_loaded tt 1)
  /\ result_of (main half_loaded [] 0) = inl (SystemExit 1)
  /\ exit_status (result_of (main half_loaded [] 0)) = 1%Z.
Proof.
  destruct (diagnostics_follow_a_completed_listing_only half_loaded [] 0 tt 1
              eq_refl) as (_ & _ & _ & H & _).
  exact H.
Defined.

(** C3, as stated, fails on the emulator that lost a table: the client is
    built and the tables are asked for, but the listing fails and no query
    of the diagnostics is ever sent. *)
Lemma failed_listing_skips_the_diagnostics :
  fst (new_client half_loaded api_endpoint project 0) = inr tt
  /\ In (ListTables dataset_id) (trace_of (main half_loaded [] 0))
  /\ result_of (list_tables half_loaded tt 1) = inr false
  /\ queries (trace_of (main half_loaded [] 0)) = [].
Proof.
  repeat split. cbn. do 8 right. left. reflexivity.
Qed.




(** * Further properties of the script *)

(** ** More on [list_tables] *)

Section ListTablesRequests.

Variable bq : bigquery.
Variable c : client bq.

Lemma table_requests_app (t1 t2 : list event) :
  table_requests (t1 ++ t2) = table_requests t1 ++ table_requests t2.
Proof.
  induction t1 as [|ev t1 IH]; [reflexivity|].
  destruct ev; cbn; rewrite IH; reflexivity.
Qed.

(** The metadata requests of the loop over the tables: one for each table
    up to the first failure, in the order of the listing. *)
Lemma show_tables_requests (tables : iter table_item) :
  forall w : world bq,
    exists n,
      table_requests (trace_of (for_each bq tables (show_table bq c) w))
      = map table_name (firstn n (yielded tables))
      /\ (metadata_ok bq c tables w = true -> n = length (yielded tables)).
Proof.
  induction tables as [|t rest IH|msg]; intro w; cbn [for_each metadata_ok yielded].
  - exists 0. split; reflexivity.
  - unfold bind. rewrite show_table_run.
    destruct (client_get_table bq c (table_name t) w) as [[msg|table_ref] w1].
    + exists 1. split; [reflexivity|discriminate].
    + destruct (IH w1) as (n & Hn & Hall).
      destruct (for_each bq rest (show_table bq c) w1) as [[r w2] t2].
      exists (S n). cbn in Hn |- *. rewrite Hn. split; [reflexivity|].
      intro H. rewrite (Hall H). reflexivity.
  - exists 0. split; [reflexivity|discriminate].
Qed.

Lemma yielded_of_list {A : Type} (l : list A) : yielded (of_list l) = l.
Proof. induction l as [|a l IH]; [reflexivity|]. cbn. rewrite IH. reflexivity. Qed.

(** The requests of the tables that were all shown. *)
Lemma shown_tables_requests (shown : list table_item) (w : world bq) :
  result_of (for_each bq (of_list shown) (show_table bq c) w) = inr tt ->
  table_requests (trace_of (for_each bq (of_list shown) (show_table bq c) w))
  = map table_name shown.
Proof.
  intro Hok.
  destruct (show_tables_requests (of_list shown) w) as (n & Hn & Hall).
  pose proof (for_each_show_tables bq c (of_list shown) w) as Hmeta.
  destruct (metadata_ok bq c (of_list shown) w).
  - rewrite Hn, (Hall eq_refl), firstn_all, yielded_of_list. reflexivity.
  - destruct Hmeta as [msg Hmsg]. rewrite Hmsg in Hok. discriminate Hok.
Qed.

(** The requests of [list_tables] are those of its loop. *)
Lemma list_tables_requests (w : world bq) (tables : iter table_item)
  (w1 : world bq) :
  client_list_tables bq c dataset_id w = (inr tables, w1) ->
  table_requests (trace_of (list_tables bq c w))
  = table_requests (trace_of (for_each bq tables (show_table bq c) w1)).
Proof.
  intro Hlist. rewrite list_tables_run, list_tables_try_run, Hlist.
  destruct (for_each bq tables (show_table bq c) w1) as [[[e|u] w2] t2];
    unfold result_of, world_of, trace_of; cbn [fst snd];
    [destruct (is_Exception e)|];
    cbn [snd listing_header app table_requests];
    rewrite ?table_requests_app; cbn; rewrite ?app_nil_r; reflexivity.
Qed.

(** X1.  [list_tables] asks for the metadata of the tables in the order in
    which the emulator lists them, one request for each table, and stops
    asking at the first failure.  When the listing completes the requests
    are the names of all the tables listed.  When the metadata of a table
    cannot be fetched, the requests are the names of the tables before it
    and its own, and no table after it is asked for.  When the listing
    itself breaks after some tables, the requests are the names of these
    tables. *)
Theorem list_tables_asks_in_listing_order :
  forall (w : world bq) (tables : iter table_item) (w1 : world bq),
    client_list_tables bq c dataset_id w = (inr tables, w1) ->
    (listing_completes bq c w = true ->
     table_requests (trace_of (list_tables bq c w))
     = map table_name (yielded tables))
    /\ (forall before bad rest msg w3,
          tables = prepend before (Yield bad rest) ->
          result_of (for_each bq (of_list before) (show_table bq c) w1) = inr tt ->
          client_get_table bq c (table_name bad)
            (world_of (for_each bq (of_list before) (show_table bq c) w1))
          = (inl msg, w3) ->
          table_requests (trace_of (list_tables bq c w))
          = map table_name (before ++ [bad]))
    /\ (forall before msg,
          tables = prepend before (Raises msg) ->
          result_of (for_each bq (of_list before) (show_table bq c) w1) = inr tt ->
          table_requests (trace_of (list_tables bq c w))
          = map table_name before).
Proof.
  intros w tables w1 Hlist.
  rewrite (list_tables_requests w tables w1 Hlist).
  split; [|split].
  - intro Hok. unfold listing_completes in Hok. rewrite Hlist in Hok.
    destruct (show_tables_requests tables w1) as (n & Hn & Hall).
    rewrite Hn, (Hall Hok), firstn_all. reflexivity.
  - intros before bad rest msg w3 -> Hbefore Hbad.
    rewrite (for_each_prepend bq before (Yield bad rest) (show_table bq c) w1
               Hbefore).
    cbn [trace_of snd for_each]. unfold bind.
    rewrite show_table_run, Hbad. cbn [snd].
    fold (trace_of (for_each bq (of_list before) (show_table bq c) w1)).
    rewrite table_requests_app, (shown_tables_requests before w1 Hbefore),
      map_app.
    reflexivity.
  - intros before msg -> Hbefore.
    rewrite (for_each_prepend bq before (Raises msg) (show_table bq c) w1
               Hbefore).
    cbn [trace_of snd for_each]. unfold raise. cbn [snd].
    fold (trace_of (for_each bq (of_list before) (show_table bq c) w1)).
    rewrite app_nil_r. apply shown_tables_requests, Hbefore.
Qed.

(** X2.  A dataset without tables is no failure: [list_tables] prints its
    header only and returns [True].  When the emulator refuses the listing
    itself, [list_tables] prints the two lines of its handler after the
    header, asks for no metadata and returns [False]. *)
Theorem list_tables_without_tables :
  forall (w w1 : world bq),
    (client_list_tables bq c dataset_id w = (inr Stop, w1) ->
     list_tables bq c w =
     (inr true, w1, listing_header ++ [ListTables dataset_id]))
    /\ forall msg : string,
        client_list_tables bq c dataset_id w = (inl msg, w1) ->
        list_tables bq c w =
        (inr false, w1,
         listing_header ++ [ListTables dataset_id]
         ++ listing_failure (Exception msg)).
Proof.
  intros w w1. split.
  - intro H. rewrite list_tables_run, list_tables_try_run, H. reflexivity.
  - intros msg H. rewrite list_tables_run, list_tables_try_run, H. reflexivity.
Qed.

End ListTablesRequests.

(** On the emulator that lost its second table, the metadata of the first
    two tables is asked for and that of the third is not. *)
Lemma requests_on_half_loaded_emulator :
  table_requests (trace_of (list_tables half_loaded tt 0)) =
  ["test-project.music_metadata.release_notifications";
   "test-project.music_metadata.parties"]%string.
Proof.
  destruct (list_tables_asks_in_listing_order half_loaded tt 0 _ 1 eq_refl)
    as (_ & H & _).
  exact (H [{| table_id := "release_notifications" |}]
           {| table_id := "parties" |}
           (Yield {| table_id := "deals" |} Stop)
           "Not found: Table test-project.music_metadata.parties" 3
           eq_refl eq_refl eq_refl).
Defined.

(** On the emulator with an empty dataset the listing succeeds; on the one
    without the dataset it fails with the message of the emulator. *)
Lemma listings_without_tables :
  list_tables empty_dataset tt 0 =
  (inr true, 1, listing_header ++ [ListTables dataset_id])
  /\ list_tables unloaded tt 0 =
     (inr false, 1,
      listing_header ++ [ListTables dataset_id]
      ++ listing_failure (Exception not_found)).
Proof.
  split.
  - exact (proj1 (list_tables_without_tables empty_dataset tt 0 1) eq_refl).
  - exact (proj2 (list_tables_without_tables unloaded tt 0 1) not_found eq_refl).
Defined.

(** ** More on [run_custom_query] *)

Section RunCustomQueryOutcomes.

Variable bq : bigquery.
Variable c : client bq.

Lemma queries_row_lines (rows : list row) : queries (row_lines rows) = [].
Proof. induction rows as [|r rows IH]; [reflexivity|exact IH]. Qed.

Lemma queries_table_header (rows : list row) : queries (table_header rows) = [].
Proof. destruct rows; reflexivity. Qed.

Lemma table_requests_row_lines (rows : list row) :
  table_requests (row_lines rows) = [].
Proof. induction rows as [|r rows IH]; [reflexivity|exact IH]. Qed.

Lemma table_requests_table_header (rows : list row) :
  table_requests (table_header rows) = [].
Proof. destruct rows; reflexivity. Qed.

(** X3.  [run_custom_query] never raises, whatever the emulator answers.
    It sends one query, the text it was given, asks for no metadata, shows
    no prompt, and leaves the emulator in the state that query left. *)
Theorem run_custom_query_sends_its_text_once :
  forall (sql : string) (w : world bq),
    result_of (run_custom_query bq c sql w) = inr tt
    /\ queries (trace_of (run_custom_query bq c sql w)) = [sql]
    /\ table_requests (trace_of (run_custom_query bq c sql w)) = []
    /\ prompts (trace_of (run_custom_query bq c sql w)) = 0
    /\ world_of (run_custom_query bq c sql w) = snd (client_query bq c sql w).
Proof.
  intros sql w.
  split; [apply run_custom_query_returns|].
  split; [|split; [|split; [apply run_custom_query_sends|]]];
    rewrite run_custom_query_run, run_custom_query_try_run;
    destruct (client_query bq c sql w) as [[msg|results] w1];
    try reflexivity;
    destruct (length (yielded results) <? 10);
    try destruct (ending results) as [msg|];
    unfold trace_of, world_of; cbn [fst snd query_preamble app queries table_requests];
    rewrite ?queries_app, ?table_requests_app, ?queries_table_header,
      ?queries_row_lines, ?table_requests_table_header, ?table_requests_row_lines;
    reflexivity.
Qed.

(** X4.  A result of at most ten rows that ends well is printed whole: the
    header, then every row in order, and no error. *)
Theorem run_custom_query_prints_a_short_result_whole :
  forall (sql : string) (w : world bq) (results : iter row) (w1 : world bq),
    client_query bq c sql w = (inr results, w1) ->
    ending results = None ->
    length (yielded results) <= 10 ->
    run_custom_query bq c sql w =
    (inr tt, w1,
     query_preamble sql ++ [Query sql]
     ++ table_header (yielded results) ++ row_lines (yielded results)).
Proof.
  intros sql w results w1 Hq Hend Hlen.
  rewrite run_custom_query_run, run_custom_query_try_run, Hq, Hend.
  rewrite (firstn_all2 (n := 10) (yielded results)) by exact Hlen.
  destruct (length (yielded results) <? 10); reflexivity.
Qed.

(** X5.  A failure is reported after what was printed before it.  When the
    emulator refuses the query, the error line follows the query at once;
    when the result breaks after fewer than ten rows, these rows are
    printed under the header and the error line follows them.  In both
    cases [run_custom_query] returns. *)
Theorem run_custom_query_reports_a_failure_after_the_rows :
  forall (sql : string) (w w1 : world bq) (msg : string),
    (client_query bq c sql w = (inl msg, w1) ->
     run_custom_query bq c sql w =
     (inr tt, w1,
      query_preamble sql ++ [Query sql; Out (error_line (Exception msg))]))
    /\ forall results : iter row,
        client_query bq c sql w = (inr results, w1) ->
        ending results = Some msg ->
        length (yielded results) < 10 ->
        run_custom_query bq c sql w =
        (inr tt, w1,
         query_preamble sql ++ [Query sql]
         ++ table_header (yielded results) ++ row_lines (yielded results)
         ++ [Out (error_line (Exception msg))]).
Proof.
  intros sql w w1 msg. split.
  - intro Hq. rewrite run_custom_query_run, run_custom_query_try_run, Hq.
    reflexivity.
  - intros results Hq Hend Hlen.
    rewrite run_custom_query_run, run_custom_query_try_run, Hq, Hend.
    rewrite (firstn_all2 (n := 10) (yielded results)) by lia.
    replace (length (yielded results) <? 10) with true
      by (symmetry; apply Nat.ltb_lt; exact Hlen).
    cbn [app]. rewrite <- !app_assoc. reflexivity.
Qed.

(** X6.  Once ten rows are printed the loop breaks before it asks the
    result for more: a result that would break after its tenth row or later
    is printed like one that ends well, and no error is reported. *)
Theorem run_custom_query_never_sees_a_failure_after_ten_rows :
  forall (sql : string) (w : world bq) (results : iter row) (w1 : world bq)
         (msg : string),
    client_query bq c sql w = (inr results, w1) ->
    ending results = Some msg ->
    10 <= length (yielded results) ->
    run_custom_query bq c sql w =
    (inr tt, w1,
     query_preamble sql ++ [Query sql]
     ++ table_header (yielded results) ++ row_lines (firstn 10 (yielded results)))
    /\ ~ In (Out (error_line (Exception msg)))
           (trace_of (run_custom_query bq c sql w)).
Proof.
  intros sql w results w1 msg Hq Hend Hlen.
  assert (Hrun : run_custom_query bq c sql w =
                 (inr tt, w1,
                  query_preamble sql ++ [Query sql]
                  ++ table_header (yielded results)
                  ++ row_lines (firstn 10 (yielded results)))).
  { rewrite run_custom_query_run, run_custom_query_try_run, Hq.
    replace (length (yielded results) <? 10) with false
      by (symmetry; apply Nat.ltb_ge; exact Hlen).
    reflexivity. }
  split; [exact Hrun|].
  rewrite Hrun. cbn [trace_of snd]. intro H.
  apply in_app_or in H. destruct H as [H|H].
  - cbn in H. repeat (destruct H as [H|H]; [discriminate H|]). exact H.
  - cbn [app] in H. destruct H as [H|H]; [discriminate H|].
    apply in_app_or in H. destruct H as [H|H].
    + destruct (yielded results) as [|first others]; [exact H|].
      cbn in H. repeat (destruct H as [H|H]; [discriminate H|]). exact H.
    + unfold row_lines in H. apply in_map_iff in H.
      destruct H as (r & H & _). cbn in H. discriminate H.
Qed.

End RunCustomQueryOutcomes.

(** On the loaded emulator the row count, one row, is printed whole. *)
Lemma one_row_is_printed_whole :
  run_custom_query loaded tt count_query 0 =
  (inr tt, 1,
   query_preamble count_query
   ++ [Query count_query; Out "    count"; Out separator_line; Out "    2"]).
Proof.
  exact (run_custom_query_prints_a_short_result_whole loaded tt count_query 0
           (Yield [("count", VInt 2)] Stop) 1 eq_refl eq_refl
           ltac:(repeat constructor)).
Defined.

(** On the emulator with the failing backend, a refused query and a result
    that breaks after two rows are both reported. *)
Lemma failures_on_flaky_emulator :
  run_custom_query flaky tt "SELECT 1" 0 =
  (inr tt, 1,
   query_preamble "SELECT 1"
   ++ [Query "SELECT 1"; Out "   ❌ Error: 503 Service Unavailable"])
  /\ run_custom_query flaky tt "SELECT n FROM numbers" 0 =
     (inr tt, 1,
      query_preamble "SELECT n FROM numbers"
      ++ [Query "SELECT n FROM numbers";
          Out "    n | even"; Out separator_line;
          Out "    1 | False"; Out "    2 | True";
          Out "   ❌ Error: 503 Service Unavailable"]).
Proof.
  destruct (run_custom_query_reports_a_failure_after_the_rows flaky tt
              "SELECT 1" 0 1 backend_down) as [Hcall _].
  destruct (run_custom_query_reports_a_failure_after_the_rows flaky tt
              "SELECT n FROM numbers" 0 1 backend_down) as [_ Hrows].
  split; [exact (Hcall eq_refl)|].
  exact (Hrows (prepend (firstn 2 numbers) (Raises backend_down))
           eq_refl eq_refl ltac:(repeat constructor)).
Defined.

(** On the emulator with the failing backend, the result that breaks after
    ten rows shows its ten rows and no error. *)
Lemma ten_rows_hide_the_failure :
  run_custom_query flaky tt "SELECT n FROM numbers ORDER BY n" 0 =
  (inr tt, 1,
   query_preamble "SELECT n FROM numbers ORDER BY n"
   ++ [Query "SELECT n FROM numbers ORDER BY n";
       Out "    n | even"; Out separator_line;
       Out "    1 | False"; Out "    2 | True"; Out "    3 | False";
       Out "    4 | True"; Out "    5 | False"; Out "    6 | True";
       Out "    7 | False"; Out "    8 | True"; Out "    9 | False";
       Out "    10 | True"]).
Proof.
  exact (proj1 (run_custom_query_never_sees_a_failure_after_ten_rows flaky tt
                  "SELECT n FROM numbers ORDER BY n" 0
                  (prepend (firstn 10 numbers) (Raises backend_down)) 1
                  backend_down eq_refl eq_refl ltac:(repeat constructor))).
Defined.

(** ** More on [query_firebase_model] *)

Section DiagnosticsRows.

Variable bq : bigquery.
Variable c : client bq.

(** X7.  When the first row of the row count has no column [count], the
    [KeyError] of [row['count']] is caught like a failure of the query: it
    is reported after the query, nothing else is printed, and the
    diagnostics end there. *)
Theorem missing_count_column_ends_the_diagnostics :
  forall (w : world bq) (r : row) (rest : iter row) (w1 : world bq),
    client_query bq c count_query w = (inr (Yield r rest), w1) ->
    lookup r "count" = None ->
    query_firebase_model bq c w =
    (inr tt, w1,
     diagnostics_header
     ++ [Query count_query;
         Out (error_line (Exception (missing_field bq "count")))]).
Proof.
  intros w r rest w1 Hq Hcol.
  assert (Hstep : count_step bq c w =
                  (inl (Exception (missing_field bq "count")), w1,
                   [Query count_query])).
  { unfold count_step, query_result, bind, call. rewrite Hq.
    cbn [for_each]. unfold bind, getitem. rewrite Hcol. reflexivity. }
  pose proof (query_firebase_model_run bq c w) as Hrun. cbv zeta in Hrun.
  rewrite Hrun, Hstep. reflexivity.
Qed.

Lemma releases_length (rows : list row) :
  Forall (fun r => release_lines r <> None) rows ->
  length (releases rows) = 6 * length rows.
Proof.
  induction 1 as [|r rows Hr _ IH]; [reflexivity|].
  cbn [releases length]. unfold release_lines in *.
  destruct (lookup r "message_id"); [|contradiction Hr; reflexivity].
  destruct (lookup r "isrc"); [|contradiction Hr; reflexivity].
  destruct (lookup r "title"); [|contradiction Hr; reflexivity].
  destruct (lookup r "artist"); [|contradiction Hr; reflexivity].
  destruct (lookup r "genre"); [|contradiction Hr; reflexivity].
  rewrite length_app, IH. cbn [length]. lia.
Qed.

(** X8.  When every row of the sample has the five columns, the third step
    of the diagnostics prints six lines for each row, in the order of the
    result: an empty line and the five labelled fields, each shown as [N/A]
    when its value is false in Python ([None], the empty string, 0,
    [False]). *)
Theorem sample_step_prints_six_lines_for_each_release :
  forall (w : world bq) (rows : list row) (w1 : world bq),
    client_query bq c sample_query w = (inr (of_list rows), w1) ->
    Forall (fun r => release_lines r <> None) rows ->
    sample_step bq c w = (inr tt, w1, Query sample_query :: releases rows)
    /\ length (releases rows) = 6 * length rows.
Proof.
  intros w rows w1 Hq Hrows. split; [|apply releases_length; exact Hrows].
  unfold sample_step, query_result, bind at 1, call. rewrite Hq.
  match goal with
  | |- context [for_each bq (of_list rows) ?body] => set (B := body)
  end.
  assert (Hloop : for_each bq (of_list rows) B w1 = (inr tt, w1, releases rows)).
  { clear Hq. induction Hrows as [|r rows Hr _ IH]; [reflexivity|].
    cbn [of_list for_each releases]. unfold bind at 1.
    assert (Hbody : B r w1 =
                    (inr tt, w1,
                     match release_lines r with
                     | Some lines => lines
                     | None => []
                     end)).
    { subst B. unfold release_lines in *. unfold bind, print, getitem, ret.
      destruct (lookup r "message_id"); [|contradiction Hr; reflexivity].
      destruct (lookup r "isrc"); [|contradiction Hr; reflexivity].
      destruct (lookup r "title"); [|contradiction Hr; reflexivity].
      destruct (lookup r "artist"); [|contradiction Hr; reflexivity].
      destruct (lookup r "genre"); [|contradiction Hr; reflexivity].
      reflexivity. }
    rewrite Hbody, IH.
    destruct (release_lines r) as [lines|]; [reflexivity|].
    contradiction Hr; reflexivity. }
  rewrite Hloop. reflexivity.
Qed.

End DiagnosticsRows.

(** On the emulator with the failing backend the row count comes back
    under the name [total], and the diagnostics end with the [KeyError]. *)
Lemma renamed_count_column_on_flaky_emulator :
  query_firebase_model flaky tt 0 =
  (inr tt, 1,
   diagnostics_header
   ++ [Query count_query; Out "   ❌ Error: no row field 'count'"]).
Proof.
  exact (missing_count_column_ends_the_diagnostics flaky tt 0
           [("total", VInt 3)] Stop 1 eq_refl eq_refl).
Defined.

(** On the loaded emulator the one release of the sample takes six lines;
    its missing artist and its empty genre show as [N/A]. *)
Lemma sample_on_loaded_emulator :
  sample_step loaded tt 0 =
  (inr tt, 1,
   [Query sample_query;
    Out "";
    Out "     Message ID: MSG001";
    Out "     ISRC: USABC2500001";
    Out "     Title: First Song";
    Out "     Artist: N/A";
    Out "     Genre: N/A"]).
Proof.
  refine (proj1 (sample_step_prints_six_lines_for_each_release loaded tt 0
                   [[("message_id", VStr "MSG001"); ("isrc", VStr "USABC2500001");
                     ("title", VStr "First Song"); ("artist", VNone);
                     ("genre", VStr "")]] 1 eq_refl _)).
  constructor; [discriminate|constructor].
Defined.

(** ** More on the interactive loop *)

Section LoopQueries.

Variable bq : bigquery.
Variable c : client bq.

Lemma run_custom_query_queries (sql : string) (w : world bq) :
  queries (trace_of (run_custom_query bq c sql w)) = [sql].
Proof.
  rewrite run_custom_query_run, run_custom_query_try_run.
  destruct (client_query bq c sql w) as [[msg|results] w1]; [reflexivity|].
  destruct (length (yielded results) <? 10);
    try destruct (ending results) as [msg|];
    unfold trace_of; cbn [snd query_preamble app queries];
    rewrite ?queries_app, queries_table_header, queries_row_lines;
    reflexivity.
Qed.

Lemma loop_body_queries (ev : input_event) (w : world bq) :
  queries (trace_of (loop_body bq c ev w)) = submitted [ev].
Proof.
  rewrite loop_body_run.
  destruct ev as [text| | |msg]; [|reflexivity|reflexivity|reflexivity].
  cbn [submitted]. unfold goes_on. cbn [ends_loop unreadable].
  destruct (PyStr.mem _ quit_tokens); [reflexivity|]. cbn [negb andb].
  destruct (PyStr.is_empty _); [reflexivity|].
  cbn [trace_of snd queries]. apply run_custom_query_queries.
Qed.

Lemma submitted_cons (ev : input_event) (rest : list input_event) :
  submitted (ev :: rest) =
  if goes_on ev then submitted [ev] ++ submitted rest else [].
Proof.
  destruct ev as [text| | |msg]; [|reflexivity|reflexivity|reflexivity].
  cbn [submitted]. destruct (goes_on (Line text)); [|reflexivity].
  destruct (PyStr.is_empty _); reflexivity.
Qed.

Lemma interactive_loop_queries (stdin : list input_event) :
  forall w : world bq,
    queries (trace_of (interactive_loop bq c stdin w)) = submitted stdin.
Proof.
  induction stdin as [|ev rest IH]; intro w; [reflexivity|].
  pose proof (loop_body_queries ev w) as Hbody.
  rewrite interactive_loop_cons, submitted_cons.
  destruct (goes_on ev) eqn:Hev; cbn [trace_of snd].
  - rewrite queries_app, Hbody, IH. reflexivity.
  - rewrite Hbody. cbn [submitted]. rewrite Hev. reflexivity.
Qed.

Lemma submitted_length (stdin : list input_event) :
  length (submitted stdin) <= length stdin.
Proof.
  induction stdin as [|ev rest IH]; [constructor|].
  cbn [submitted length]. destruct (goes_on ev); [|cbn; lia].
  destruct ev as [text| | |msg]; [|cbn; lia|cbn; lia|cbn; lia].
  destruct (PyStr.is_empty _); cbn [length]; lia.
Qed.

Lemma submitted_until (before : list input_event) (ev : input_event)
  (after : list input_event) :
  goes_on ev = false ->
  submitted (before ++ ev :: after) = submitted before.
Proof.
  intro Hev. induction before as [|ev0 before IH]; cbn [app].
  - cbn [submitted]. rewrite Hev. reflexivity.
  - rewrite (submitted_cons ev0 (before ++ ev :: after)),
      (submitted_cons ev0 before).
    destruct (goes_on ev0); [|reflexivity].
    rewrite IH. reflexivity.
Qed.

(** X9.  The queries the interactive loop sends are the lines it read
    before the first input after which it does not go on, stripped, in
    order, the blank ones left out: one query at most for each input, and
    none from a quit token, the end of the input, an interrupt or an input
    that cannot be read, nor from what follows it. *)
Theorem interactive_loop_sends_the_submitted_lines :
  forall (stdin : list input_event) (w : world bq),
    queries (trace_of (interactive_loop bq c stdin w)) = submitted stdin
    /\ length (queries (trace_of (interactive_loop bq c stdin w))) <= length stdin
    /\ forall before ev after,
        stdin = before ++ ev :: after ->
        goes_on ev = false ->
        queries (trace_of (interactive_loop bq c stdin w)) = submitted before.
Proof.
  intros stdin w. rewrite interactive_loop_queries.
  split; [reflexivity|]. split; [apply submitted_length|].
  intros before ev after -> Hev. apply submitted_until, Hev.
Qed.

Lemma submitted_clean (stdin : list input_event) (sql : string) :
  In sql (submitted stdin) ->
  sql <> ""%string
  /\ PyStr.strip sql = sql
  /\ PyStr.skip sql = None
  /\ PyStr.mem (PyStr.lower sql) quit_tokens = false.
Proof.
  induction stdin as [|ev rest IH]; [intros []|].
  cbn [submitted]. destruct (goes_on ev) eqn:Hev; [|intros []].
  destruct ev as [text| | |msg]; [|intros []|intros []|intros []].
  destruct (PyStr.is_empty (PyStr.strip text)) eqn:Hempty; [exact IH|].
  intros [<-|H]; [|exact (IH H)].
  split; [|split; [|split]].
  - intro H. rewrite H in Hempty. discriminate Hempty.
  - apply strip_strip.
  - apply skip_strip.
  - unfold goes_on in Hev. cbn [ends_loop unreadable] in Hev.
    destruct (PyStr.mem _ quit_tokens); [discriminate Hev|reflexivity].
Qed.

(** X10.  Whatever the loop sends to the emulator is not empty, has no
    white space around it, that of Unicode included (stripping it again
    changes nothing, and it starts with no character of white space), and
    is no quit token in any case of letters. *)
Theorem interactive_loop_sends_clean_text :
  forall (stdin : list input_event) (w : world bq) (sql : string),
    In (Query sql) (trace_of (interactive_loop bq c stdin w)) ->
    sql <> ""%string
    /\ PyStr.strip sql = sql
    /\ (forall white rest, In white PyStr.white_space -> sql <> (white ++ rest)%string)
    /\ ~ In (PyStr.lower sql) ["quit"; "exit"; "q"]%string.
Proof.
  intros stdin w sql H. apply In_queries in H.
  rewrite interactive_loop_queries in H.
  destruct (submitted_clean stdin sql H) as (Hfull & Hstrip & Hstart & Hquit).
  split; [exact Hfull|]. split; [exact Hstrip|].
  split.
  { intros white rest Hwhite ->.
    rewrite (skip_white white rest Hwhite) in Hstart. discriminate Hstart. }
  intro Hin. unfold quit_tokens in Hquit. cbn [PyStr.mem] in Hquit.
  destruct Hin as [E|[E|[E|[]]]]; rewrite <- E in Hquit; cbn in Hquit;
    discriminate Hquit.
Qed.


(** X12.  The loop prompts at least once and at most once more than
    standard input holds inputs. *)
Theorem interactive_loop_prompts_within_bounds :
  forall (stdin : list input_event) (w : world bq),
    1 <= prompts (trace_of (interactive_loop bq c stdin w))
    /\ prompts (trace_of (interactive_loop bq c stdin w)) <= S (length stdin).
Proof.
  intro stdin. induction stdin as [|ev rest IH]; intro w.
  - cbn. lia.
  - rewrite interactive_loop_cons.
    pose proof (loop_body_prompts_once bq c ev w) as Hone.
    destruct (goes_on ev); cbn [trace_of snd length].
    + rewrite prompts_app, Hone.
      destruct (IH (world_of (loop_body bq c ev w))). lia.
    + rewrite Hone. lia.
Qed.

End LoopQueries.


(** On the loaded emulator, a line between a non-breaking and an
    ideographic space is sent without them. *)
Lemma sent_text_is_stripped :
  In (Query "SELEC 1")
    (trace_of (interactive_loop loaded tt
                 [Line (nbsp ++ " SELEC 1" ++ wide_space); Line "Q"] 0))
  /\ "SELEC 1"%string <> ""%string
  /\ PyStr.strip "SELEC 1" = "SELEC 1"%string
  /\ (forall white rest,
        In white PyStr.white_space -> "SELEC 1"%string <> (white ++ rest)%string)
  /\ ~ In (PyStr.lower "SELEC 1") ["quit"; "exit"; "q"]%string.
Proof.
  assert (H : In (Query "SELEC 1")
                (trace_of (interactive_loop loaded tt
                             [Line (nbsp ++ " SELEC 1" ++ wide_space); Line "Q"] 0)))
    by (vm_compute; do 5 right; left; reflexivity).
  split; [exact H|].
  exact (interactive_loop_sends_clean_text loaded tt
           [Line (nbsp ++ " SELEC 1" ++ wide_space); Line "Q"] 0 "SELEC 1" H).
Defined.

(** ** More on [main] *)

Section WholeRuns.

Variable bq : bigquery.

(** X13.  When building the client fails, the run prints the banner, the
    message of the failure and the two hints, and exits with status 1: it
    asks the emulator for nothing more and reads nothing from standard
    input. *)
Theorem failed_connection_ends_the_run :
  forall (stdin : list input_event) (w : world bq) (msg : string) (w1 : world bq),
    new_client bq api_endpoint project w = (inl msg, w1) ->
    main bq stdin w =
    (inl (SystemExit 1), w1, banner ++ connection_failure (Exception msg))
    /\ exit_status (result_of (main bq stdin w)) = 1%Z.
Proof.
  intros stdin w msg w1 Hnew.
  pose proof (main_run bq stdin w) as Hrun. cbv zeta in Hrun.
  rewrite Hnew in Hrun. rewrite Hrun. split; reflexivity.
Qed.

(** X14.  In a run that reaches the loop, the queries sent to the emulator
    are those of the diagnostics followed by the lines submitted at the
    prompt; the banners, the connection and the listing send none. *)
Theorem run_sends_the_diagnostics_then_the_submitted_lines :
  forall (stdin : list input_event) (w : world bq) (c : client bq) (w1 : world bq),
    new_client bq api_endpoint project w = (inr c, w1) ->
    listing_completes bq c w1 = true ->
    queries (trace_of (main bq stdin w)) =
    queries (trace_of (query_firebase_model bq c (world_of (list_tables bq c w1))))
    ++ submitted stdin.
Proof.
  intros stdin w c w1 Hnew Hlist.
  pose proof (main_run bq stdin w) as Hrun. cbv zeta in Hrun.
  rewrite Hnew, Hlist in Hrun. rewrite Hrun. cbn [trace_of snd].
  destruct (list_tables_trace bq c w1) as (_ & Hq & _).
  rewrite !queries_app, Hq, interactive_loop_queries. reflexivity.
Qed.

(** X15.  An exception that [input] raises on input it cannot read is not
    caught by the loop.  In a run that reaches the loop and comes to such
    an input, [main] ends with that exception: the run shows the prompt of
    that round and nothing after it, reads nothing more, and exits with
    status 1 after the traceback. *)
Theorem unreadable_input_ends_the_run :
  forall (stdin before after : list input_event) (msg : string)
         (w : world bq) (c : client bq) (w1 : world bq),
    new_client bq api_endpoint project w = (inr c, w1) ->
    listing_completes bq c w1 = true ->
    stdin = before ++ Unreadable msg :: after ->
    all_go_on before = true ->
    result_of (main bq stdin w) = inl (Exception msg)
    /\ exit_status (result_of (main bq stdin w)) = 1%Z
    /\ prompts (trace_of (main bq stdin w)) = S (length before)
    /\ queries (trace_of (main bq stdin w)) =
       queries (trace_of (query_firebase_model bq c (world_of (list_tables bq c w1))))
       ++ submitted before
    /\ exists t, trace_of (main bq stdin w) = t ++ [Input prompt].
Proof.
  intros stdin before after msg w c w1 Hnew Hlist -> Hgo.
  pose proof (main_run bq (before ++ Unreadable msg :: after) w) as Hrun.
  cbv zeta in Hrun. rewrite Hnew, Hlist in Hrun. rewrite Hrun.
  cbn [result_of trace_of fst snd].
  set (w3 := world_of (query_firebase_model bq c (world_of (list_tables bq c w1)))).
  assert (Hloop : forall w0,
             result_of (interactive_loop bq c (before ++ Unreadable msg :: after) w0)
             = inl (Exception msg)
             /\ prompts (trace_of (interactive_loop bq c
                                     (before ++ Unreadable msg :: after) w0))
                = S (length before)
             /\ exists t, trace_of (interactive_loop bq c
                                      (before ++ Unreadable msg :: after) w0)
                          = t ++ [Input prompt]).
  { clear Hrun w3. induction before as [|ev0 before IH]; intro w0; cbn [app length].
    - rewrite interactive_loop_cons. cbn.
      split; [reflexivity|]. split; [reflexivity|]. exists []. reflexivity.
    - cbn [all_go_on forallb] in Hgo.
      apply andb_prop in Hgo. destruct Hgo as [H0 Hgo].
      rewrite interactive_loop_cons, H0. cbn [result_of trace_of fst snd].
      destruct (IH Hgo (world_of (loop_body bq c ev0 w0))) as (Hr & Hp & (t & Ht)).
      split; [exact Hr|]. split.
      + rewrite prompts_app, (loop_body_prompts_once bq c ev0 w0).
        fold (trace_of (interactive_loop bq c (before ++ Unreadable msg :: after)
                          (world_of (loop_body bq c ev0 w0)))).
        rewrite Hp. reflexivity.
      + exists (trace_of (loop_body bq c ev0 w0) ++ t).
        fold (trace_of (interactive_loop bq c (before ++ Unreadable msg :: after)
                          (world_of (loop_body bq c ev0 w0)))).
        rewrite Ht, app_assoc. reflexivity. }
  destruct (Hloop w3) as (Hr & Hp & (t & Ht)).
  destruct (list_tables_trace bq c w1) as (_ & Hq1 & Hp1).
  destruct (query_firebase_model_trace bq c (world_of (list_tables bq c w1)))
    as (_ & Hp2).
  fold (result_of (interactive_loop bq c (before ++ Unreadable msg :: after) w3)).
  fold (trace_of (interactive_loop bq c (before ++ Unreadable msg :: after) w3)).
  rewrite Hr. split; [reflexivity|]. split; [reflexivity|]. split; [|split].
  - rewrite !prompts_app, Hp1, Hp2, Hp. reflexivity.
  - rewrite !queries_app, Hq1, interactive_loop_queries.
    rewrite (submitted_until before (Unreadable msg) after eq_refl).
    reflexivity.
  - exists (banner ++ connected ++ trace_of (list_tables bq c w1)
            ++ trace_of (query_firebase_model bq c (world_of (list_tables bq c w1)))
            ++ loop_banner ++ t).
    rewrite Ht, <- !app_assoc. reflexivity.
Qed.

(** X16.  A run that [main] ends with [sys.exit(1)] has sent no query and
    shown no prompt: it ended before the diagnostics and the loop. *)
Theorem run_ended_by_sys_exit_sent_no_query :
  forall (stdin : list input_event) (w : world bq),
    result_of (main bq stdin w) = inl (SystemExit 1) ->
    queries (trace_of (main bq stdin w)) = []
    /\ prompts (trace_of (main bq stdin w)) = 0.
Proof.
  intros stdin w Hexit.
  pose proof (main_run bq stdin w) as Hrun. cbv zeta in Hrun.
  destruct (new_client bq api_endpoint project w) as [[msg|c] w1].
  - rewrite Hrun. split; reflexivity.
  - destruct (listing_completes bq c w1).
    + rewrite Hrun in Hexit. cbn [result_of fst] in Hexit.
      pose proof (interactive_loop_result bq c stdin
                    (world_of (query_firebase_model bq c
                                 (world_of (list_tables bq c w1))))) as Hloop.
      fold (result_of (interactive_loop bq c stdin
                         (world_of (query_firebase_model bq c
                                      (world_of (list_tables bq c w1)))))) in Hexit.
      destruct (reaches_unreadable stdin);
        destruct Hloop as [x Hx]; rewrite Hx in Hexit; discriminate Hexit.
    + rewrite Hrun. cbn [trace_of snd].
      destruct (list_tables_trace bq c w1) as (_ & Hq & Hp).
      rewrite !queries_app, !prompts_app, Hq, Hp. split; reflexivity.
Qed.

End WholeRuns.

(** When no emulator listens, the run ends with the hints. *)
Lemma unreachable_emulator_run :
  main unreachable [Line "SELECT 1"] 0 =
  (inl (SystemExit 1), 1,
   banner
   ++ [NewClient "http://localhost:9050" "test-project";
       Out "❌ Failed to connect to emulator: Connection refused";
       Out "";
       Out "Make sure:";
       Out "  1. Emulator is running: ./scripts/load-ddex-to-bigquery-local.sh skip-tests";
       Out "  2. Port 9050 is accessible"])
  /\ exit_status (result_of (main unreachable [Line "SELECT 1"] 0)) = 1%Z.
Proof.
  exact (failed_connection_ends_the_run unreachable [Line "SELECT 1"] 0
           "Connection refused" 1 eq_refl).
Defined.

(** On the loaded emulator, a run sends the three queries of the
    diagnostics and then the two lines submitted before [quit], which
    stands between two non-breaking spaces; the line of ideographic spaces
    sends nothing. *)
Lemma queries_of_a_run_on_loaded_emulator :
  queries (trace_of (main loaded
                       [Line "SELECT 1 WHERE FALSE"; Line (wide_space ++ wide_space);
                        Line (" SELEC 1" ++ nbsp);
                        Line (nbsp ++ "quit" ++ nbsp);
                        Line "SELECT n FROM numbers"] 0)) =
  [count_query; fields_query; sample_query; "SELECT 1 WHERE FALSE"; "SELEC 1"]%string.
Proof.
  exact (run_sends_the_diagnostics_then_the_submitted_lines loaded
           [Line "SELECT 1 WHERE FALSE"; Line (wide_space ++ wide_space);
            Line (" SELEC 1" ++ nbsp);
            Line (nbsp ++ "quit" ++ nbsp);
            Line "SELECT n FROM numbers"] 0 tt 1 eq_refl eq_refl).
Defined.

(** On the emulator without the dataset, the run ends with [sys.exit(1)]
    without a query or a prompt. *)
Lemma silent_run_on_unloaded_emulator :
  queries (trace_of (main unloaded [Line "SELECT 1"] 0)) = []
  /\ prompts (trace_of (main unloaded [Line "SELECT 1"] 0)) = 0.
Proof.
  exact (run_ended_by_sys_exit_sent_no_query unloaded [Line "SELECT 1"] 0 eq_refl).
Defined.

(** On the loaded emulator, a run that reads a query and then comes to
    bytes that are no text ends with the [UnicodeDecodeError], with status
    1, after two prompts. *)
Lemma undecodable_input_on_loaded_emulator :
  result_of (main loaded [Line "SELEC 1"; Unreadable "'utf-8' codec can't decode byte 0xff";
                          Line "quit"] 0)
  = inl (Exception "'utf-8' codec can't decode byte 0xff")
  /\ exit_status
       (result_of (main loaded [Line "SELEC 1";
                                Unreadable "'utf-8' codec can't decode byte 0xff";
                                Line "quit"] 0)) = 1%Z
  /\ prompts (trace_of (main loaded [Line "SELEC 1";
                                     Unreadable "'utf-8' codec can't decode byte 0xff";
                                     Line "quit"] 0)) = 2.
Proof.
  destruct (unreadable_input_ends_the_run loaded
              [Line "SELEC 1"; Unreadable "'utf-8' codec can't decode byte 0xff";
               Line "quit"]
              [Line "SELEC 1"] [Line "quit"]
              "'utf-8' codec can't decode byte 0xff" 0 tt 1
              eq_refl eq_refl eq_refl eq_refl)
    as (Hr & He & Hp & _).
  split; [exact Hr|]. split; [exact He|exact Hp].
Defined.
